(** * Data ingestor: metadata derivation for tabular files

    A shallow embedding of [src/data_ingestor.py] (the ingestors, the
    format reader, the factory and the metadata writer) and of the reload
    step of [src/data_loader.py].

    Python strings are [string], dictionaries with string keys are
    [gmap string _], lists are [list].  The libraries the program calls
    (pandas, zipfile, json, the operating system) are not part of the
    repository: what they decode or refuse is a parameter of the
    development (class [Platform]), so every theorem holds for any
    behaviour of these libraries. *)

From Stdlib Require Import ZArith Ascii String List Bool Lia.
From Stdlib Require Import Decimal DecimalString.
From stdpp Require Import base option list gmap strings fin_maps.

Open Scope string_scope.
Open Scope list_scope.

(** ** Python string operations used by the program *)

Module Py.
Local Open Scope Z_scope.

(** [s.startswith(prefix)] *)
Definition startswith (s prefix : string) : bool := String.prefix prefix s.

(** [s[i:]] for [0 <= i] *)
Definition slice_from (s : string) (i : Z) : string :=
  String.substring (Z.to_nat i) (String.length s - Z.to_nat i) s.

(** [s[:i]] for [0 <= i] *)
Definition slice_to (s : string) (i : Z) : string :=
  String.substring 0 (Nat.min (Z.to_nat i) (String.length s)) s.

(** [s.endswith(suffix)] *)
Definition endswith (s suffix : string) : bool :=
  let n := String.length s in
  let m := String.length suffix in
  (m <=? n)%nat && String.eqb (String.substring (n - m) m s) suffix.

(** [s.endswith((a, b, ...))]: a tuple of alternatives *)
Definition endswith_any (s : string) (suffixes : list string) : bool :=
  existsb (endswith s) suffixes.

(** [s.rfind(c)] for a one-character [c]: the highest index holding
    [c], or [-1]. *)
Fixpoint rfind_from (s : string) (c : ascii) (i : Z) (found : Z) : Z :=
  match s with
  | EmptyString => found
  | String a rest =>
      rfind_from rest c (i + 1) (if Ascii.eqb a c then i else found)
  end.

Definition rfind (s : string) (c : ascii) : Z := rfind_from s c 0 (-1).

(** [x in s] for a one-character [x] *)
Fixpoint contains (s : string) (c : ascii) : bool :=
  match s with
  | EmptyString => false
  | String a rest => Ascii.eqb a c || contains rest c
  end.

End Py.

(** ** [os.path] (POSIX flavour) *)

Module os_path.
Local Open Scope Z_scope.

Definition sep : ascii := "/"%char.
Definition extsep : ascii := "."%char.

(** [posixpath.join(a, b)]:
    an absolute [b] replaces [a]; otherwise [b] is appended, with a
    separator unless [a] is empty or already ends with one. *)
Definition join (a b : string) : string :=
  if Py.startswith b "/" then b
  else if String.eqb a "" || Py.endswith a "/" then a +:+ b
  else a +:+ "/" +:+ b.

(** [posixpath.basename(p)]: [i = p.rfind('/') + 1; return p[i:]] *)
Definition basename (p : string) : string :=
  let i := Py.rfind p sep + 1 in
  Py.slice_from p i.

(** The loop of [genericpath._splitext] that skips leading dots:
    is there a character other than [.] in [p[from:upto]]? *)
Fixpoint has_non_dot (p : string) (from upto : nat) : bool :=
  match p with
  | EmptyString => false
  | String a rest =>
      match upto with
      | O => false
      | S upto' =>
          match from with
          | O => negb (Ascii.eqb a extsep) || has_non_dot rest O upto'
          | S from' => has_non_dot rest from' upto'
          end
      end
  end.

(** [posixpath.splitext(p)]: split at the last dot of the last
    component, unless that component consists of leading dots only up
    to that dot. *)
Definition splitext (p : string) : string * string :=
  let sepIndex := Py.rfind p sep in
  let dotIndex := Py.rfind p extsep in
  if (sepIndex <? dotIndex)
     && has_non_dot p (Z.to_nat (sepIndex + 1)) (Z.to_nat dotIndex)
  then (Py.slice_to p dotIndex, Py.slice_from p dotIndex)
  else (p, "").

End os_path.

(** ** Exceptions and outcomes *)

(** The exception classes the program raises itself or receives from the
    libraries.  All of them derive from [Exception], so every one is
    caught by an [except Exception] clause. *)
Inductive ExcClass :=
  | ValueError | FileNotFoundError | FileExistsError | PermissionError
  | IsADirectoryError | NotADirectoryError | OSError
  | TypeError | NameError | BadZipFile | ParserError | Exception_.

Record Exception := mkExc { exc_class : ExcClass; exc_msg : string }.

(** [str(e)], as interpolated by the f-strings of the program. *)
Definition str (e : Exception) : string := exc_msg e.

Inductive Outcome (A : Type) :=
  | Return (a : A)
  | Raise (e : Exception).
Arguments Return {A} a.
Arguments Raise {A} e.

Global Instance Outcome_ret : MRet Outcome := @Return.
Global Instance Outcome_bind : MBind Outcome := λ A B f m,
  match m with
  | Return a => f a
  | Raise e => Raise e
  end.

(** [try: body except Exception as e: handler(e)] *)
Definition try_except {A} (body : Outcome A) (handler : Exception → Outcome A)
  : Outcome A :=
  match body with
  | Return a => Return a
  | Raise e => handler e
  end.

(** ** Data model *)

(** A pandas data frame, as far as the program looks at it:
    [df.columns.tolist()] and [len(df)]. *)
Record DataFrame := mkDataFrame {
  df_columns : list string;
  df_rows : list (list string)
}.

Definition len (df : DataFrame) : nat := length (df_rows df).

(** The dictionary [{'function': ..., 'arguments': {...}}]. *)
Record ImportInstructions := mkImport {
  function : string;
  arguments : gmap string string
}.

(** The metadata dictionary built for one file. *)
Record FileMetadata := mkMetadata {
  file_name : string;
  file_type : string;
  columns : list string;
  row_count : nat;
  import_instructions : ImportInstructions
}.

(** What the run shows to the user: [warnings.warn] and [print]. *)
Inductive Event :=
  | Warned (msg : string)
  | Printed (msg : string).

(** ** The file system

    Regular files by path, in the order in which a directory listing
    reports them.  A directory exists where a file lies beneath it. *)
Definition FileSystem := list (string * string).

Module FS.

Definition read (fs : FileSystem) (p : string) : option string :=
  snd <$> List.find (λ e, String.eqb (fst e) p) fs.

(** Overwrite in place, or add at the end. *)
Fixpoint write (fs : FileSystem) (p content : string) : FileSystem :=
  match fs with
  | [] => [(p, content)]
  | (q, old) :: rest =>
      if String.eqb q p then (q, content) :: rest
      else (q, old) :: write rest p content
  end.

(** [pre + rest = s] gives [Some rest]. *)
Fixpoint strip_prefix (pre s : string) : option string :=
  match pre with
  | EmptyString => Some s
  | String a pre' =>
      match s with
      | EmptyString => None
      | String b s' => if Ascii.eqb a b then strip_prefix pre' s' else None
      end
  end.

(** The part of a relative path before its first separator. *)
Fixpoint first_component (s : string) : string :=
  match s with
  | EmptyString => EmptyString
  | String a rest =>
      if Ascii.eqb a os_path.sep then EmptyString
      else String a (first_component rest)
  end.

(** The name under which directory [d] lists the file at path [p],
    if [p] lies beneath [d]. *)
Definition entry_under (d p : string) : option string :=
  match strip_prefix (os_path.join d "") p with
  | Some rest =>
      let name := first_component rest in
      if String.eqb name "" then None else Some name
  | None => None
  end.

(** The entries of directory [d]: files directly beneath it, and the
    sub-directories that hold files, each name once. *)
Definition listdir (fs : FileSystem) (d : string) : list string :=
  remove_dups (omap (entry_under d) (fst <$> fs)).

(** [os.path.exists(p)]: a file, or a directory holding one. *)
Definition exists_ (fs : FileSystem) (p : string) : bool :=
  bool_decide (is_Some (read fs p))
  || bool_decide (listdir fs p ≠ []).

(** [p] goes through a regular file: one of its proper prefixes, up to
    a separator, is the path of a file. *)
Definition through_a_file (fs : FileSystem) (p : string) : bool :=
  existsb
    (λ e, bool_decide (is_Some (strip_prefix (os_path.join (fst e) "") p)))
    fs.

End FS.

(** ** The libraries and the machine

    [project_root] is [dirname(dirname(abspath(__file__)))].  The
    decoders stand for pandas and zipfile applied to the bytes of a
    file.  [zip_decode] gives the members of an archive that extracts
    to the end; for one that does not, [zip_extracted_before] gives
    what [extractall] had taken out of it when the error came: nothing
    if the archive could not even be opened.  [os_refuses] says which
    paths the operating system will not create or write, and with which
    error; [failed_write_leaves p content] is what the file at [p] holds
    after such a failed write of [content]: [None] when [open(p, 'w')]
    itself failed and the file is as before, [Some partial] when the
    file was opened, and so emptied, and [partial] had reached it.
    [json_dumps] is [json.dump(_, _, indent=4)]. *)
Class Platform := {
  project_root : string;
  csv_decode : string → string → Outcome DataFrame;
  excel_decode : string → Outcome DataFrame;
  parquet_decode : string → Outcome DataFrame;
  json_decode : string → Outcome DataFrame;
  zip_decode : string → Outcome (list (string * string));
  zip_extracted_before : string → list (string * string);
  os_refuses : string → option Exception;
  failed_write_leaves : string → string → option string;
  json_dumps : list FileMetadata → string
}.

Definition TAB : string := String "009"%char EmptyString.

(** [open(p)] for reading: the bytes of a file; the error of the
    empty path, of a directory, of a path that goes through a regular
    file, of a path where nothing is. *)
Definition open_read (fs : FileSystem) (p : string) : Outcome string :=
  match FS.read fs p with
  | Some bytes => Return bytes
  | None =>
      if String.eqb p "" then
        Raise (mkExc FileNotFoundError
                 "[Errno 2] No such file or directory: ''")
      else if bool_decide (FS.listdir fs p ≠ []) then
        Raise (mkExc IsADirectoryError
                 ("[Errno 21] Is a directory: '" +:+ p +:+ "'"))
      else if FS.through_a_file fs p then
        Raise (mkExc NotADirectoryError
                 ("[Errno 20] Not a directory: '" +:+ p +:+ "'"))
      else
        Raise (mkExc FileNotFoundError
                 ("[Errno 2] No such file or directory: '" +:+ p +:+ "'"))
  end.

(** The pandas readers: open the path, decode the bytes. *)
Module pd.

Definition read_csv `{!Platform} (fs : FileSystem)
    (filepath_or_buffer delimiter : string) : Outcome DataFrame :=
  bytes ← open_read fs filepath_or_buffer; csv_decode delimiter bytes.

Definition read_excel `{!Platform} (fs : FileSystem) (io : string)
  : Outcome DataFrame :=
  bytes ← open_read fs io; excel_decode bytes.

Definition read_parquet `{!Platform} (fs : FileSystem) (path : string)
  : Outcome DataFrame :=
  bytes ← open_read fs path; parquet_decode bytes.

Definition read_json `{!Platform} (fs : FileSystem) (path_or_buf : string)
  : Outcome DataFrame :=
  bytes ← open_read fs path_or_buf; json_decode bytes.

End pd.

(** ** [PathManager] *)

Module PathManager.

Definition get_project_root `{!Platform} : string := project_root.

Definition get_data_folder `{!Platform} : string :=
  os_path.join get_project_root "data".

Definition get_extracted_data_folder `{!Platform} : string :=
  os_path.join get_project_root "extracted_data".

Definition get_metadata_folder `{!Platform} : string :=
  os_path.join get_project_root "metadata".

End PathManager.

(** ** Effects: the file system and what is shown to the user *)

Record World := mkWorld {
  files : FileSystem;
  shown : list Event
}.

(** A computation that may change the world and may raise. *)
Definition Run (A : Type) : Type := World → Outcome A * World.

Global Instance Run_ret : MRet Run := λ A a w, (Return a, w).
Global Instance Run_bind : MBind Run := λ A B f m w,
  match m w with
  | (Return a, w') => f a w'
  | (Raise e, w') => (Raise e, w')
  end.

Definition raise {A} (e : Exception) : Run A := λ w, (Raise e, w).

(** Code that only reads the file system. *)
Definition reading {A} (f : FileSystem → Outcome A) : Run A :=
  λ w, (f (files w), w).

Definition show (ev : Event) : Run unit :=
  λ w, (Return (), {| files := files w; shown := shown w ++ [ev] |}).

(** [warnings.warn(msg)] and [print(msg)] *)
Definition warn (msg : string) : Run unit := show (Warned msg).
Definition print (msg : string) : Run unit := show (Printed msg).

(** [try: body except Exception as e: handler(e)]; what the body did
    before it raised stays done. *)
Definition try_catch {A} (body : Run A) (handler : Exception → Run A) : Run A :=
  λ w,
    match body w with
    | (Return a, w') => (Return a, w')
    | (Raise e, w') => handler e w'
    end.

(** [os.makedirs(d, exist_ok=True)]: fails where the system refuses, or
    where [d] is a regular file. *)
Definition os_makedirs `{!Platform} (d : string) : Run unit :=
  λ w,
    match os_refuses d with
    | Some e => (Raise e, w)
    | None =>
        match FS.read (files w) d with
        | Some _ =>
            (Raise (mkExc FileExistsError
                      ("[Errno 17] File exists: '" +:+ d +:+ "'")), w)
        | None => (Return (), w)
        end
    end.

(** [with open(p, 'w') as f: f.write(content)]: the file holds
    [content] afterwards; or the write fails, at [open] with the file
    untouched, or later with the file emptied and partly written. *)
Definition write_file `{!Platform} (p content : string) : Run unit :=
  λ w,
    match os_refuses p with
    | Some e =>
        (Raise e,
         match failed_write_leaves p content with
         | Some partial =>
             {| files := FS.write (files w) p partial; shown := shown w |}
         | None => w
         end)
    | None =>
        (Return (), {| files := FS.write (files w) p content;
                       shown := shown w |})
    end.

(** [os.listdir(d)], called on a folder that [os.makedirs] has just
    ensured: the names of what lies directly beneath [d]. *)
Definition os_listdir (d : string) : Run (list string) :=
  reading (λ fs, Return (FS.listdir fs d)).

(** [ZipFile.extractall(d)] on decoded members: every member is written
    beneath [d] under its relative name, in archive order. *)
Fixpoint extract_members `{!Platform} (members : list (string * string))
    (d : string) : Run unit :=
  match members with
  | [] => mret ()
  | (name, content) :: rest =>
      write_file (os_path.join d "" +:+ name) content;;
      extract_members rest d
  end.

(** [with zipfile.ZipFile(file_path, 'r') as zip_ref:
       zip_ref.extractall(d)]: the members are written one after the
    other, so an archive that fails part-way leaves the earlier ones
    in [d]. *)
Definition zipfile_extractall `{!Platform} (file_path d : string) : Run unit :=
  bytes ← reading (λ fs, open_read fs file_path);
  match zip_decode bytes with
  | Return members => extract_members members d
  | Raise e => extract_members (zip_extracted_before bytes) d;; raise e
  end.

(** ** [DataIngestor]: the shared static methods *)

Module DataIngestor.

Definition save_metadata `{!Platform} (metadata : list FileMetadata)
  : Run unit :=
  let metadata_dir := PathManager.get_metadata_folder in
  os_makedirs metadata_dir;;
  let metadata_path := os_path.join metadata_dir "metadata.json" in
  try_catch
    (write_file metadata_path (json_dumps metadata);;
     print ("Metadata saved at " +:+ metadata_path))
    (λ e, warn ("Failed to save metadata: " +:+ str e)).

Definition read_file `{!Platform} (fs : FileSystem)
    (file_path file_extension : string)
  : Outcome (DataFrame * ImportInstructions) :=
  if String.eqb file_extension ".csv" then
    df ← pd.read_csv fs file_path ",";
    mret (df, {| function := "pd.read_csv";
                 arguments := {[ "filepath_or_buffer" := file_path ]} |})
  else if String.eqb file_extension ".xlsx" then
    df ← pd.read_excel fs file_path;
    mret (df, {| function := "pd.read_excel";
                 arguments := {[ "io" := file_path ]} |})
  else if String.eqb file_extension ".parquet" then
    df ← pd.read_parquet fs file_path;
    mret (df, {| function := "pd.read_parquet";
                 arguments := {[ "path" := file_path ]} |})
  else if String.eqb file_extension ".json" then
    df ← pd.read_json fs file_path;
    mret (df, {| function := "pd.read_json";
                 arguments := {[ "path_or_buf" := file_path ]} |})
  else if String.eqb file_extension ".txt" then
    df ← pd.read_csv fs file_path TAB;
    mret (df, {| function := "pd.read_csv";
                 arguments := <[ "delimiter" := TAB ]>
                                {[ "filepath_or_buffer" := file_path ]} |})
  else
    Raise (mkExc ValueError ("Unsupported file type: " +:+ file_extension)).

End DataIngestor.

(** ** The per-format ingestors *)

Module CsvDataIngestor.

Definition ingest `{!Platform} (fs : FileSystem) (file_path : string)
  : Outcome FileMetadata :=
  if negb (Py.endswith file_path ".csv") then
    Raise (mkExc ValueError "The provided file is not a CSV file.")
  else if negb (FS.exists_ fs file_path) then
    Raise (mkExc FileNotFoundError
             ("The file " +:+ file_path +:+ " does not exist."))
  else
    try_except
      ('(df, import_instructions) ← DataIngestor.read_file fs file_path ".csv";
       mret {| file_name := os_path.basename file_path;
               file_type := ".csv";
               columns := df_columns df;
               row_count := len df;
               import_instructions := import_instructions |})
      (λ e, Raise (mkExc ValueError ("Failed to ingest CSV file: " +:+ str e))).

End CsvDataIngestor.

Module ExcelDataIngestor.

Definition ingest `{!Platform} (fs : FileSystem) (file_path : string)
  : Outcome FileMetadata :=
  if negb (Py.endswith_any file_path [".xlsx"; ".xls"]) then
    Raise (mkExc ValueError "The provided file is not an Excel file.")
  else
    try_except
      ('(df, import_instructions) ← DataIngestor.read_file fs file_path ".xlsx";
       mret {| file_name := os_path.basename file_path;
               file_type := ".xlsx";
               columns := df_columns df;
               row_count := len df;
               import_instructions := import_instructions |})
      (λ e, Raise (mkExc ValueError ("Failed to ingest Excel file: " +:+ str e))).

End ExcelDataIngestor.

Module ParquetDataIngestor.

Definition ingest `{!Platform} (fs : FileSystem) (file_path : string)
  : Outcome FileMetadata :=
  if negb (Py.endswith file_path ".parquet") then
    Raise (mkExc ValueError "The provided file is not a Parquet file.")
  else
    try_except
      ('(df, import_instructions) ← DataIngestor.read_file fs file_path ".parquet";
       mret {| file_name := os_path.basename file_path;
               file_type := ".parquet";
               columns := df_columns df;
               row_count := len df;
               import_instructions := import_instructions |})
      (λ e, Raise (mkExc ValueError ("Failed to ingest Parquet file: " +:+ str e))).

End ParquetDataIngestor.

Module JsonDataIngestor.

Definition ingest `{!Platform} (fs : FileSystem) (file_path : string)
  : Outcome FileMetadata :=
  if negb (Py.endswith file_path ".json") then
    Raise (mkExc ValueError "The provided file is not a JSON file.")
  else
    try_except
      ('(df, import_instructions) ← DataIngestor.read_file fs file_path ".json";
       mret {| file_name := os_path.basename file_path;
               file_type := ".parquet";
               columns := df_columns df;
               row_count := len df;
               import_instructions := import_instructions |})
      (λ e, Raise (mkExc ValueError ("Failed to ingest Parquet file: " +:+ str e))).

End JsonDataIngestor.

Module TxtDataIngestor.

Definition ingest `{!Platform} (fs : FileSystem) (file_path : string)
  : Outcome FileMetadata :=
  if negb (Py.endswith file_path ".txt") then
    Raise (mkExc ValueError "The provided file is not a TXT file.")
  else
    try_except
      ('(df, import_instructions) ← DataIngestor.read_file fs file_path ".json";
       mret {| file_name := os_path.basename file_path;
               file_type := ".json";
               columns := df_columns df;
               row_count := len df;
               import_instructions := import_instructions |})
      (λ e, Raise (mkExc ValueError ("Failed to ingest TXT file: " +:+ str e))).

End TxtDataIngestor.

(** ** [ZipDataIngestor] *)

Module ZipDataIngestor.

Definition supported_formats : gset string :=
  {[ ".csv"; ".xlsx"; ".parquet"; ".json"; ".txt" ]}.

(** [[i for i in extracted_files
      if not i.startswith('.') and not i.startswith('_')]] *)
Definition filter_extracted (extracted_files : list string) : list string :=
  List.filter
    (λ i, negb (Py.startswith i ".") && negb (Py.startswith i "_"))
    extracted_files.

(** The body of [for file_name in filtered_extracted_files], with the
    list [metadata] collected so far. *)
Fixpoint for_each_file `{!Platform} (extracted_data_folder : string)
    (file_names : list string) (metadata : list FileMetadata)
  : Run (list FileMetadata) :=
  match file_names with
  | [] => mret metadata
  | file_name :: rest =>
      let extracted_file_path :=
        os_path.join extracted_data_folder file_name in
      let file_extension := (os_path.splitext file_name).2 in
      if negb (bool_decide (file_extension ∈ supported_formats)) then
        warn ("Unsupported file type: " +:+ file_name +:+ ". Skipping.");;
        for_each_file extracted_data_folder rest metadata
      else
        metadata' ←
          try_catch
            ('(df, import_instructions) ←
               reading (λ fs, DataIngestor.read_file fs
                                extracted_file_path file_extension);
             mret (metadata ++
                   [ {| file_name := file_name;
                        file_type := file_extension;
                        columns := df_columns df;
                        row_count := len df;
                        import_instructions := import_instructions |} ]))
            (λ e,
               warn ("Failed to process " +:+ file_name +:+ ": " +:+ str e);;
               mret metadata);
        for_each_file extracted_data_folder rest metadata'
  end.

Definition ingest `{!Platform} (file_path : string) : Run (list FileMetadata) :=
  if negb (Py.endswith file_path ".zip") then
    raise (mkExc ValueError "Provided file is not a .zip archive.")
  else
    present ← reading (λ fs, Return (FS.exists_ fs file_path));
    if negb present then
      raise (mkExc FileNotFoundError
               ("File " +:+ file_path +:+ " does not exist."))
    else
      let extracted_data_folder := PathManager.get_extracted_data_folder in
      os_makedirs extracted_data_folder;;
      zipfile_extractall file_path extracted_data_folder;;
      extracted_files ← os_listdir extracted_data_folder;
      let filtered_extracted_files := filter_extracted extracted_files in
      if bool_decide (filtered_extracted_files = []) then
        raise (mkExc FileNotFoundError "No files found within the .zip file.")
      else
        for_each_file extracted_data_folder filtered_extracted_files [].

End ZipDataIngestor.

(** ** [DataFactory] *)

Inductive Ingestor :=
  | ZipDataIngestor
  | CsvDataIngestor
  | ExcelDataIngestor
  | ParquetDataIngestor
  | JsonDataIngestor
  | TxtDataIngestor.

Module DataFactory.

Definition ingestors : gmap string Ingestor :=
  <[ ".zip" := ZipDataIngestor ]> (
  <[ ".csv" := CsvDataIngestor ]> (
  <[ ".xlsx" := ExcelDataIngestor ]> (
  <[ ".parquet" := ParquetDataIngestor ]> (
  <[ ".json" := JsonDataIngestor ]> (
  <[ ".txt" := TxtDataIngestor ]> ∅))))).

Definition get_ingestor (file_extension : string) : Outcome Ingestor :=
  match ingestors !! file_extension with
  | None =>
      Raise (mkExc ValueError ("Unsupported file type: " +:+ file_extension))
  | Some ingestor_class => Return ingestor_class
  end.

End DataFactory.

(** ** [DataLoader]: executing the recorded import instructions *)

Module DataLoader.

(** [eval(import_function)] on the texts the ingestors record, which
    name the four pandas readers.  Python evaluates any expression;
    of all the other texts the model keeps only that they do not name
    one of these readers, so what is proved of the loader is proved for
    recorded recipes. *)
Inductive PandasFunction :=
  | pd_read_csv | pd_read_excel | pd_read_parquet | pd_read_json.

Definition eval (import_function : string) : Outcome PandasFunction :=
  if String.eqb import_function "pd.read_csv" then Return pd_read_csv
  else if String.eqb import_function "pd.read_excel" then Return pd_read_excel
  else if String.eqb import_function "pd.read_parquet" then Return pd_read_parquet
  else if String.eqb import_function "pd.read_json" then Return pd_read_json
  else Raise (mkExc NameError
                ("name '" +:+ import_function +:+ "' is not defined")).

(** Binding the keyword arguments to the one required parameter [required] and
    the optional ones [optional]. *)
Definition bind_kwargs (kwargs : gmap string string)
    (required : string) (optional : list string) : Outcome string :=
  match kwargs !! required with
  | None =>
      Raise (mkExc TypeError
               ("missing 1 required positional argument: '"
                  +:+ required +:+ "'"))
  | Some value =>
      if bool_decide (dom kwargs ⊆ list_to_set (required :: optional))
      then Return value
      else Raise (mkExc TypeError "got an unexpected keyword argument")
  end.

(** Calling [f] with the keyword arguments [import_args]. *)
Definition call `{!Platform} (fs : FileSystem) (f : PandasFunction)
    (import_args : gmap string string) : Outcome DataFrame :=
  match f with
  | pd_read_csv =>
      path ← bind_kwargs import_args "filepath_or_buffer" ["delimiter"];
      pd.read_csv fs path (default "," (import_args !! "delimiter"))
  | pd_read_excel =>
      path ← bind_kwargs import_args "io" []; pd.read_excel fs path
  | pd_read_parquet =>
      path ← bind_kwargs import_args "path" []; pd.read_parquet fs path
  | pd_read_json =>
      path ← bind_kwargs import_args "path_or_buf" []; pd.read_json fs path
  end.

(** One turn of the loop of [load_data], up to the data frame:
    [eval(import_function)] called with the keyword arguments
    [import_args], any failure wrapped. *)
Definition load_entry `{!Platform} (fs : FileSystem) (entry : FileMetadata)
  : Outcome DataFrame :=
  let file_name := file_name entry in
  let import_function := function (import_instructions entry) in
  let import_args := arguments (import_instructions entry) in
  try_except
    (f ← eval import_function; call fs f import_args)
    (λ e, Raise (mkExc Exception_
                   ("Failed to load data from " +:+ file_name
                      +:+ ": " +:+ str e))).

(** [df.head()]: the first five rows. *)
Definition df_head (df : DataFrame) : DataFrame :=
  {| df_columns := df_columns df; df_rows := take 5 (df_rows df) |}.

(** [str(n)] of a natural number, as an f-string interpolates it. *)
Definition str_nat (n : nat) : string :=
  NilEmpty.string_of_uint (Nat.to_uint n).

Definition ESC : string := String "027"%char EmptyString.
Definition LF : string := String "010"%char EmptyString.

(** The line printed for a loaded frame (the name in bold). *)
Definition loaded_message (file_name_no_ext : string) (df : DataFrame)
  : string :=
  "Loaded " +:+ ESC +:+ "[1m" +:+ file_name_no_ext +:+ ESC +:+ "[0m with "
    +:+ str_nat (len df) +:+ " rows and "
    +:+ str_nat (length (df_columns df)) +:+ " features." +:+ LF.

(** What [load_data] returns: the one frame, or the list of frames. *)
Inductive Loaded :=
  | OneFrame (df : DataFrame)
  | Frames (dfs : list DataFrame).

(** The object a [DataLoader(metadata_file_path)] call builds, for a
    metadata file of the form [save_metadata] writes: a list of
    dictionaries with the keys of [FileMetadata]. *)
Record Loader := mkLoader {
  metadata_file_path : string;
  metadata : list FileMetadata
}.

Section notebook.
Context {pf : Platform}.

(** [display] belongs to the notebook the loader runs in: its first
    argument tells [display(df.head().style)] from [display(df.head())].
    [json_loads] is [json.load] on the text of the metadata file. *)
Variable display : bool → DataFrame → Run unit.
Variable json_loads : string → Outcome (list FileMetadata).

Definition load_metadata (fs : FileSystem) (metadata_file_path : string)
  : Outcome (list FileMetadata) :=
  try_except
    (text ← open_read fs metadata_file_path; json_loads text)
    (λ e, Raise (mkExc Exception_ ("Error loading metadata: " +:+ str e))).

(** [DataLoader.__init__] *)
Definition init (fs : FileSystem) (metadata_file_path : string)
  : Outcome Loader :=
  metadata ← load_metadata fs metadata_file_path;
  mret {| metadata_file_path := metadata_file_path; metadata := metadata |}.

(** The body of [for entry in self.metadata], up to the frame it
    loads; [singular_file] picks the styled display. *)
Definition load_one (singular_file : bool) (entry : FileMetadata)
  : Run DataFrame :=
  let file_name := file_name entry in
  try_catch
    (let file_name_no_ext := (os_path.splitext file_name).1 in
     let import_function := function (import_instructions entry) in
     let import_args := arguments (import_instructions entry) in
     df ← reading (λ fs, f ← eval import_function; call fs f import_args);
     print (loaded_message file_name_no_ext df);;
     display singular_file (df_head df);;
     mret df)
    (λ e, raise (mkExc Exception_
                   ("Failed to load data from " +:+ file_name
                      +:+ ": " +:+ str e))).

(** The loop in the branch with several files: [dfs.append(df)]. *)
Fixpoint load_each (entries : list FileMetadata) (dfs : list DataFrame)
  : Run (list DataFrame) :=
  match entries with
  | [] => mret dfs
  | entry :: rest =>
      df ← load_one false entry;
      load_each rest (dfs ++ [df])
  end.

(** [load_data]: [len(self.metadata) == 1] is the case of one entry,
    which returns [df]; any other length returns [dfs]. *)
Definition load_data (self : Loader) : Run Loaded :=
  match metadata self with
  | [entry] =>
      print ("Loading file..." +:+ LF +:+ LF);;
      df ← load_one true entry;
      mret (OneFrame df)
  | entries =>
      print ("Loading files..." +:+ LF +:+ LF);;
      dfs ← load_each entries [];
      mret (Frames dfs)
  end.

End notebook.

End DataLoader.

(** ** The script run as [__main__] *)

(** What an [ingest] method returns: one metadata dictionary, or, for
    an archive, a list of them. *)
Inductive Ingested :=
  | OneFile (metadata : FileMetadata)
  | ManyFiles (metadata : list FileMetadata).

Module Script.

(** [os.listdir(d)] on a folder the program does not make itself: it
    fails where [d] is missing or is a regular file. *)
Definition os_listdir_existing (d : string) : Run (list string) :=
  λ w,
    match FS.read (files w) d with
    | Some _ =>
        (Raise (mkExc NotADirectoryError
                  ("[Errno 20] Not a directory: '" +:+ d +:+ "'")), w)
    | None =>
        if bool_decide (FS.listdir (files w) d = []) then
          (Raise (mkExc FileNotFoundError
                    ("[Errno 2] No such file or directory: '" +:+ d +:+ "'")),
           w)
        else (Return (FS.listdir (files w) d), w)
    end.

(** [ingestor.ingest(file_path)]: the method of the instance's class. *)
Definition ingest `{!Platform} (ingestor : Ingestor) (file_path : string)
  : Run Ingested :=
  match ingestor with
  | ZipDataIngestor =>
      ms ← ZipDataIngestor.ingest file_path; mret (ManyFiles ms)
  | CsvDataIngestor =>
      m ← reading (λ fs, CsvDataIngestor.ingest fs file_path); mret (OneFile m)
  | ExcelDataIngestor =>
      m ← reading (λ fs, ExcelDataIngestor.ingest fs file_path); mret (OneFile m)
  | ParquetDataIngestor =>
      m ← reading (λ fs, ParquetDataIngestor.ingest fs file_path);
      mret (OneFile m)
  | JsonDataIngestor =>
      m ← reading (λ fs, JsonDataIngestor.ingest fs file_path); mret (OneFile m)
  | TxtDataIngestor =>
      m ← reading (λ fs, TxtDataIngestor.ingest fs file_path); mret (OneFile m)
  end.

(** [[DataFactory.get_ingestor(ext) for ext in file_extensions]] *)
Fixpoint get_ingestors (file_extensions : list string)
  : Outcome (list Ingestor) :=
  match file_extensions with
  | [] => Return []
  | ext :: rest =>
      ingestor ← DataFactory.get_ingestor ext;
      ingestors ← get_ingestors rest;
      mret (ingestor :: ingestors)
  end.

(** The loop over [zip(data_ingestors, filtered_file_path,
    file_extensions)].  The test [file_extension != '.zip'] chooses
    between [append] and [extend]; the ingestor was made from that
    extension, so the test agrees with what the ingestor returns: one
    dictionary is appended, a list extends. *)
Fixpoint ingest_each `{!Platform} (work : list (Ingestor * string))
    (metadata_list : list FileMetadata) : Run (list FileMetadata) :=
  match work with
  | [] => mret metadata_list
  | (ingestor, file_path) :: rest =>
      metadata ← ingest ingestor file_path;
      match metadata with
      | OneFile m => ingest_each rest (metadata_list ++ [m])
      | ManyFiles ms => ingest_each rest (metadata_list ++ ms)
      end
  end.

Definition main `{!Platform} : Run unit :=
  let data_folder := PathManager.get_data_folder in
  listed ← os_listdir_existing data_folder;
  let filtered_file_path :=
    os_path.join data_folder <$>
      List.filter
        (λ i, negb (Py.startswith i ".") && negb (Py.startswith i "_"))
        listed in
  let file_extensions :=
    (λ i, (os_path.splitext i).2) <$> filtered_file_path in
  data_ingestors ← reading (λ _, get_ingestors file_extensions);
  metadata_list ← ingest_each (zip data_ingestors filtered_file_path) [];
  DataIngestor.save_metadata metadata_list;;
  print "Data was successfuly ingested.".

End Script.

(** ** A concrete platform, to run the model on concrete files *)

Module Sample.

Definition NL : ascii := "010"%char.

(** [s.split(c)] *)
Fixpoint split (c : ascii) (s : string) : list string :=
  match s with
  | EmptyString => [EmptyString]
  | String a rest =>
      if Ascii.eqb a c then EmptyString :: split c rest
      else match split c rest with
           | [] => [String a EmptyString]
           | w :: ws => String a w :: ws
           end
  end.

Definition text_lines (bytes : string) : list string :=
  List.filter (λ l, negb (String.eqb l "")) (split NL bytes).

(** Delimited text: the first line names the columns, every further
    line is a row. *)
Definition delimited (delimiter bytes : string) : Outcome DataFrame :=
  match delimiter, text_lines bytes with
  | String c EmptyString, header :: rows =>
      Return {| df_columns := split c header;
                df_rows := split c <$> rows |}
  | _, _ => Raise (mkExc ParserError "No columns to parse from file")
  end.

(** A binary format stands for: a magic word, then delimited text. *)
Definition tagged (magic bytes : string) : Outcome DataFrame :=
  match FS.strip_prefix magic bytes with
  | Some body => delimited "," body
  | None => Raise (mkExc ValueError ("File is not a " +:+ magic +:+ " file"))
  end.

(** A platform whose archives, sound or damaged, are known by their
    bytes: a damaged one gives the members in front of the damage.
    The paths in [read_only] cannot be opened for writing. *)
Definition platform_with
    (archives damaged : list (string * list (string * string)))
    (read_only : list string) : Platform :=
  {| project_root := "/proj";
     csv_decode := delimited;
     excel_decode := tagged "XLSX";
     parquet_decode := tagged "PAR1";
     json_decode := tagged "JSON";
     zip_decode := λ bytes,
       match List.find (λ a, String.eqb (fst a) bytes) archives with
       | Some a => Return (snd a)
       | None =>
           match List.find (λ a, String.eqb (fst a) bytes) damaged with
           | Some _ => Raise (mkExc BadZipFile "Bad CRC-32 for a member")
           | None => Raise (mkExc BadZipFile "File is not a zip file")
           end
       end;
     zip_extracted_before := λ bytes,
       match List.find (λ a, String.eqb (fst a) bytes) damaged with
       | Some a => snd a
       | None => []
       end;
     os_refuses := λ p,
       if bool_decide (p ∈ read_only) then
         Some (mkExc PermissionError
                 ("[Errno 13] Permission denied: '" +:+ p +:+ "'"))
       else None;
     failed_write_leaves := λ _ _, None;
     json_dumps := λ metadata,
       String.concat "," (file_name <$> metadata) |}.

(** The same with sound archives only. *)
Definition platform (archives : list (string * list (string * string)))
    (read_only : list string) : Platform :=
  platform_with archives [] read_only.

(** A platform whose disk is full: [metadata.json] can be opened, and
    is emptied by that, but nothing can be written to it. *)
Definition full_disk : Platform :=
  {| project_root := "/proj";
     csv_decode := delimited;
     excel_decode := tagged "XLSX";
     parquet_decode := tagged "PAR1";
     json_decode := tagged "JSON";
     zip_decode := λ _, Raise (mkExc BadZipFile "File is not a zip file");
     zip_extracted_before := λ _, [];
     os_refuses := λ p,
       if String.eqb p "/proj/metadata/metadata.json" then
         Some (mkExc OSError "[Errno 28] No space left on device")
       else None;
     failed_write_leaves := λ _ _, Some "";
     json_dumps := λ metadata,
       String.concat "," (file_name <$> metadata) |}.

Definition two_rows_csv : string :=
"x,y
1,2
3,4
".

Definition sales_csv : string :=
  "id,amount
1,10
2,20
3,30
".

End Sample.


(** * Vocabulary of the properties *)

Abbreviation folder := PathManager.get_extracted_data_folder.

(** ** The error kinds of the specification *)

(** [UnsupportedFormat]: the [ValueError] naming the extension. *)
Definition UnsupportedFormat (file_extension : string) : Exception :=
  mkExc ValueError ("Unsupported file type: " +:+ file_extension).

(** [FileNotFound]: a [FileNotFoundError] about a missing path. *)
Definition FileNotFound (e : Exception) : Prop :=
  exc_class e = FileNotFoundError.

Definition FileNotFound_of {A} (r : Outcome A) : Prop :=
  match r with
  | Raise e => FileNotFound e
  | Return _ => False
  end.

(** [EmptyArchive]: the [FileNotFoundError] of an archive without
    eligible entries. *)
Definition EmptyArchive : Exception :=
  mkExc FileNotFoundError "No files found within the .zip file.".

(** The extensions the factory knows. *)
Definition recognized_extensions : list string :=
  [".zip"; ".csv"; ".xlsx"; ".parquet"; ".json"; ".txt"].

(** A well-formed tab-delimited file of the example platform. *)
Definition tab_delimited_file : string :=
  "id" +:+ TAB +:+ "amount" +:+ String Sample.NL
    ("1" +:+ TAB +:+ "10" +:+ String Sample.NL "").

(** The record the specification gives for [sales.csv]. *)
Definition sales_metadata_as_claimed : FileMetadata :=
  {| file_name := "sales.csv";
     file_type := ".csv";
     columns := ["id"; "amount"];
     row_count := 3;
     import_instructions :=
       {| function := "csv_reader";
          arguments := {[ "path" := "sales.csv" ]} |} |}.

(** The record the CSV ingestor builds for it. *)
Definition sales_metadata : FileMetadata :=
  {| file_name := "sales.csv";
     file_type := ".csv";
     columns := ["id"; "amount"];
     row_count := 3;
     import_instructions :=
       {| function := "pd.read_csv";
          arguments := {[ "filepath_or_buffer" := "sales.csv" ]} |} |}.

(** A plain file name: not empty, no separator in it. *)
Definition plain_name (n : string) : Prop :=
  n ≠ "" ∧ Py.contains n os_path.sep = false.

(** A name the ingestor goes on with: plain, and starting neither
    with [.] nor with [_]. *)
Definition eligible (n : string) : Prop :=
  plain_name n ∧ Py.startswith n "." = false ∧ Py.startswith n "_" = false.

(** A name the ingestor leaves out. *)
Definition hidden (n : string) : Prop :=
  Py.startswith n "." = true ∨ Py.startswith n "_" = true.

(** The warning shown for a member the format reader rejects with
    [e]: one text for an extension that is not supported, another for
    bytes that do not decode. *)
Definition rejection_warning (file_name : string) (e : Exception) : string :=
  if bool_decide ((os_path.splitext file_name).2
                    ∈ ZipDataIngestor.supported_formats)
  then "Failed to process " +:+ file_name +:+ ": " +:+ str e
  else "Unsupported file type: " +:+ file_name +:+ ". Skipping.".

(** The files after the members have been written beneath [d]. *)
Definition unpack (fs : FileSystem) (members : list (string * string))
    (d : string) : FileSystem :=
  fold_left (λ fs m, FS.write fs (os_path.join d "" +:+ m.1) m.2) members fs.

Section vocabulary.
Context {pf : Platform}.

(** [file_path] names a readable archive with the given members, and
    the system allows the extraction folder and every member to be
    written: the conditions under which the ingestor gets as far as the
    directory listing. *)
Definition extracts (file_path : string) (w : World)
    (members : list (string * string)) : Prop :=
  Py.endswith file_path ".zip" = true
  ∧ (∃ bytes, FS.read (files w) file_path = Some bytes
              ∧ zip_decode bytes = Return members)
  ∧ os_refuses folder = None
  ∧ FS.read (files w) folder = None
  ∧ Forall (λ m, os_refuses (os_path.join folder "" +:+ m.1) = None) members.

(** What one turn of the loop over the listed names contributes: a
    record, or the text of a warning. *)
Definition turn (fs : FileSystem) (d file_name : string)
  : FileMetadata + string :=
  let file_extension := (os_path.splitext file_name).2 in
  if bool_decide (file_extension ∈ ZipDataIngestor.supported_formats) then
    match DataIngestor.read_file fs (os_path.join d file_name) file_extension with
    | Return (df, import_instructions) =>
        inl {| file_name := file_name;
               file_type := file_extension;
               columns := df_columns df;
               row_count := len df;
               import_instructions := import_instructions |}
    | Raise e =>
        inr ("Failed to process " +:+ file_name +:+ ": " +:+ str e)
    end
  else inr ("Unsupported file type: " +:+ file_name +:+ ". Skipping.").

Definition records (fs : FileSystem) (d : string) (names : list string)
  : list FileMetadata :=
  omap (λ n, match turn fs d n with inl m => Some m | inr _ => None end) names.

Definition warnings (fs : FileSystem) (d : string) (names : list string)
  : list Event :=
  omap (λ n, match turn fs d n with inr msg => Some (Warned msg) | inl _ => None end)
    names.

(** The record [m] was built from a data frame the format reader
    produced on the files [fs], together with the recipe it returned. *)
Definition describes (fs : FileSystem) (m : FileMetadata) : Prop :=
  ∃ p ext df,
    DataIngestor.read_file fs p ext = Return (df, import_instructions m)
    ∧ columns m = df_columns df
    ∧ row_count m = len df.

(** [m] is the metadata of a successfully ingested file, and [fs] are
    the files as the ingestion left them. *)
Inductive ingested : FileSystem → FileMetadata → Prop :=
  | ingested_csv fs file_path m :
      CsvDataIngestor.ingest fs file_path = Return m → ingested fs m
  | ingested_excel fs file_path m :
      ExcelDataIngestor.ingest fs file_path = Return m → ingested fs m
  | ingested_parquet fs file_path m :
      ParquetDataIngestor.ingest fs file_path = Return m → ingested fs m
  | ingested_json fs file_path m :
      JsonDataIngestor.ingest fs file_path = Return m → ingested fs m
  | ingested_txt fs file_path m :
      TxtDataIngestor.ingest fs file_path = Return m → ingested fs m
  | ingested_zip file_path w ms w' m :
      ZipDataIngestor.ingest file_path w = (Return ms, w') →
      m ∈ ms → ingested (files w') m.

End vocabulary.

(** ** Sample files and worlds of the example platform *)



(** An archive with a well-formed CSV and a file of another kind, and a
    world whose extraction folder still holds [old.csv]. *)
Definition bundle_members : list (string * string) :=
  [("a.csv", Sample.two_rows_csv); ("notes.md", "hello")].

Definition bundle : Platform :=
  Sample.platform [("BUNDLE", bundle_members)] [].

Definition bundle_world : World :=
  {| files := [("/data/bundle.zip", "BUNDLE");
               ("/proj/extracted_data/old.csv", Sample.sales_csv)];
     shown := [] |}.

Definition old_csv_metadata : FileMetadata :=
  {| file_name := "old.csv";
     file_type := ".csv";
     columns := ["id"; "amount"];
     row_count := 3;
     import_instructions :=
       {| function := "pd.read_csv";
          arguments :=
            {[ "filepath_or_buffer" := "/proj/extracted_data/old.csv" ]} |} |}.

Definition clean_world : World :=
  {| files := [("/data/bundle.zip", "BUNDLE")]; shown := [] |}.

(** An archive whose members lie in a folder [d]. *)
Definition nested : Platform :=
  Sample.platform
    [("NESTED", [("d/a.csv", Sample.two_rows_csv); ("d/notes.md", "hello")])]
    [].

Definition nested_world : World :=
  {| files := [("/data/nested.zip", "NESTED")]; shown := [] |}.

(** A well-formed JSON file of the example platform. *)
Definition json_file : string := "JSON" +:+ Sample.sales_csv.

Definition no_archives : Platform := Sample.platform [] [].

(** A platform on which [metadata.json] cannot be written. *)
Definition locked_metadata : Platform :=
  Sample.platform [] ["/proj/metadata/metadata.json"].

(** A platform on which the metadata folder cannot be made. *)
Definition locked_folder : Platform :=
  Sample.platform [] ["/proj/metadata"].

(** An archive that is damaged behind its first member [a.csv], and a
    world that holds it. *)
Definition damaged : Platform :=
  Sample.platform_with [] [("DAMAGED", [("a.csv", Sample.two_rows_csv)])] [].


(** ** Vocabulary of the further properties *)

(** Going from the files [fs] to the files [fs'], nothing outside
    directory [d] has changed and no file has gone. *)
Definition untouched_outside (d : string) (fs fs' : FileSystem) : Prop :=
  (∀ q, FS.strip_prefix (os_path.join d "") q = None →
        FS.read fs' q = FS.read fs q)
  ∧ (∀ q, q ∈ fst <$> fs → q ∈ fst <$> fs').

(** The path of the metadata file. *)
Definition metadata_path `{!Platform} : string :=
  os_path.join PathManager.get_metadata_folder "metadata.json".

(** The run of the ZIP ingestor on [bundle.zip] with an empty
    extraction folder, and the record it gives for [a.csv]. *)
Definition bundle_run : Outcome (list FileMetadata) * World :=
  @ZipDataIngestor.ingest bundle "/data/bundle.zip" clean_world.

Definition a_csv_metadata : FileMetadata :=
  {| file_name := "a.csv";
     file_type := ".csv";
     columns := ["x"; "y"];
     row_count := 2;
     import_instructions :=
       {| function := "pd.read_csv";
          arguments :=
            {[ "filepath_or_buffer" := "/proj/extracted_data/a.csv" ]} |} |}.

(** The reader names the ingestors record in their recipes. *)
Definition recorded_readers : list string :=
  ["pd.read_csv"; "pd.read_excel"; "pd.read_parquet"; "pd.read_json"].

(** The frames a call of [load_data] has returned, as a list. *)
Definition frames (r : DataLoader.Loaded) : list DataFrame :=
  match r with
  | DataLoader.OneFrame df => [df]
  | DataLoader.Frames dfs => dfs
  end.

(** A [display] that shows something and does nothing else. *)
Definition shows_only (display : bool → DataFrame → Run unit) : Prop :=
  ∀ styled df w, ∃ evs,
    display styled df w
    = (Return (), {| files := files w; shown := shown w ++ evs |}).

(** The frame [df] has the shape the record [m] gives. *)
Definition has_shape (m : FileMetadata) (df : DataFrame) : Prop :=
  df_columns df = columns m ∧ len df = row_count m.

(** A platform whose metadata folder is taken by a regular file. *)
Definition metadata_is_a_file : World :=
  {| files := [("/proj/metadata", "not a folder")]; shown := [] |}.

(** A notebook [display] that prints a line, and a [json.load] that
    knows the encoding of one batch. *)
Definition line_display (styled : bool) (df : DataFrame) : Run unit :=
  print (if styled then "<styled table>" else "<table>").

Definition loads_sales (text : string) : Outcome (list FileMetadata) :=
  if String.eqb text "sales.csv" then Return [sales_metadata]
  else Raise (mkExc ValueError "Expecting value: line 1 column 1 (char 0)").

Definition sales_loader : DataLoader.Loader :=
  {| DataLoader.metadata_file_path := "/proj/metadata/metadata.json";
     DataLoader.metadata := [sales_metadata] |}.

(** The paths the script goes on with, and their extensions:
    [filtered_file_path] and [file_extensions]. *)
Definition eligible_paths `{!Platform} (fs : FileSystem) : list string :=
  os_path.join PathManager.get_data_folder <$>
    List.filter
      (λ i, negb (Py.startswith i ".") && negb (Py.startswith i "_"))
      (FS.listdir fs PathManager.get_data_folder).

Definition data_extensions `{!Platform} (fs : FileSystem) : list string :=
  (λ i, (os_path.splitext i).2) <$> eligible_paths fs.

(** The line the script ends with. *)
Definition success_line : Event := Printed "Data was successfuly ingested.".

(** A data folder with a file of a kind the factory does not know. *)
Definition readme_world : World :=
  {| files := [("/proj/data/sales.csv", Sample.sales_csv);
               ("/proj/data/README.md", "read me")];
     shown := [] |}.

(** The files after the script has run on [sales_world]. *)
Definition sales_saved : World :=
  {| files := [("/proj/data/sales.csv", Sample.sales_csv);
               ("/proj/metadata/metadata.json", "sales.csv")];
     shown := [] |}.

(** A data folder with one CSV file. *)
Definition sales_world : World :=
  {| files := [("/proj/data/sales.csv", Sample.sales_csv)]; shown := [] |}.

(** The record the script builds for [/proj/data/sales.csv]. *)
Definition data_sales_metadata : FileMetadata :=
  {| file_name := "sales.csv";
     file_type := ".csv";
     columns := ["id"; "amount"];
     row_count := 3;
     import_instructions :=
       {| function := "pd.read_csv";
          arguments := {[ "filepath_or_buffer" := "/proj/data/sales.csv" ]} |} |}.

(** * Properties *)

(** ** The path functions on sample paths *)

Example splitext_plain :
  os_path.splitext "sales.csv" = ("sales", ".csv").
Proof. reflexivity. Qed.

Example splitext_last_dot :
  os_path.splitext "dir.d/archive.tar.gz" = ("dir.d/archive.tar", ".gz").
Proof. reflexivity. Qed.

Example splitext_leading_dot :
  os_path.splitext "dir/.csv" = ("dir/.csv", "").
Proof. reflexivity. Qed.

Example splitext_no_extension :
  os_path.splitext "dir.d/notes" = ("dir.d/notes", "").
Proof. reflexivity. Qed.

Example basename_nested :
  os_path.basename "/data/in/sales.csv" = "sales.csv".
Proof. reflexivity. Qed.

Example basename_bare : os_path.basename "sales.csv" = "sales.csv".
Proof. reflexivity. Qed.

Example join_relative : os_path.join "/proj" "metadata" = "/proj/metadata".
Proof. reflexivity. Qed.

Example join_trailing_separator : os_path.join "/proj/" "data" = "/proj/data".
Proof. reflexivity. Qed.

Example join_absolute : os_path.join "/proj" "/tmp/x" = "/tmp/x".
Proof. reflexivity. Qed.

Example endswith_tuple :
  Py.endswith_any "book.xls" [".xlsx"; ".xls"] = true
  ∧ Py.endswith "book.xls" ".xlsx" = false.
Proof. split; reflexivity. Qed.

Example listdir_sample :
  FS.listdir [("/proj/extracted_data/a.csv", "");
              ("/proj/extracted_data/sub/b.csv", "");
              ("/proj/extracted_data/sub/c.csv", "");
              ("/proj/extracted_data/.hidden", "");
              ("/proj/data/bundle.zip", "")]
    "/proj/extracted_data"
  = ["a.csv"; "sub"; ".hidden"].
Proof. reflexivity. Qed.

(** On a platform that refuses nothing the metadata file is written
    and the path is printed. *)
Example save_metadata_sample :
  @DataIngestor.save_metadata no_archives [sales_metadata]
    {| files := []; shown := [] |}
  = (Return (),
     {| files := [("/proj/metadata/metadata.json", "sales.csv")];
        shown := [Printed "Metadata saved at /proj/metadata/metadata.json"] |}).
Proof. reflexivity. Qed.

(** ** The factory *)

(** C6. An extension outside the six recognized values makes
    [get_ingestor] fail with [UnsupportedFormat]; each of the six
    recognized values gives its own ingestor. *)
Theorem get_ingestor_total (file_extension : string) :
  (file_extension ∉ recognized_extensions →
   DataFactory.get_ingestor file_extension = Raise (UnsupportedFormat file_extension))
  ∧ DataFactory.get_ingestor ".zip" = Return ZipDataIngestor
  ∧ DataFactory.get_ingestor ".csv" = Return CsvDataIngestor
  ∧ DataFactory.get_ingestor ".xlsx" = Return ExcelDataIngestor
  ∧ DataFactory.get_ingestor ".parquet" = Return ParquetDataIngestor
  ∧ DataFactory.get_ingestor ".json" = Return JsonDataIngestor
  ∧ DataFactory.get_ingestor ".txt" = Return TxtDataIngestor.
Proof.
  split; [|repeat split; reflexivity].
  intros Hout. unfold recognized_extensions in Hout.
  repeat (apply not_elem_of_cons in Hout as [? Hout]).
  unfold DataFactory.get_ingestor, DataFactory.ingestors.
  repeat (rewrite lookup_insert_ne by congruence).
  rewrite lookup_empty. reflexivity.
Qed.

Lemma get_ingestor_total_witness :
  (".xls" ∉ recognized_extensions)
  ∧ DataFactory.get_ingestor ".xls" = Raise (UnsupportedFormat ".xls").
Proof.
  assert (H : ".xls" ∉ recognized_extensions).
  { unfold recognized_extensions. intros Hin.
    repeat (apply elem_of_cons in Hin as [Hin|Hin]; [discriminate Hin|]).
    inversion Hin. }
  split; [exact H|].
  exact (proj1 (get_ingestor_total ".xls") H).
Defined.

(** ** Missing paths *)

(** [open] returns the bytes of a file, and raises where there is no
    file. *)
Lemma open_read_file (fs : FileSystem) (p bytes : string) :
  FS.read fs p = Some bytes → open_read fs p = Return bytes.
Proof. intros Hread. unfold open_read. by rewrite Hread. Qed.

Lemma open_read_no_file (fs : FileSystem) (p : string) :
  FS.read fs p = None → ∃ e, open_read fs p = Raise e.
Proof.
  intros Hnone. unfold open_read. rewrite Hnone.
  repeat case_match; eauto.
Qed.

Section missing_paths.
Context {pf : Platform}.

Lemma exists_false_read (fs : FileSystem) (p : string) :
  FS.exists_ fs p = false → FS.read fs p = None.
Proof.
  unfold FS.exists_. intros H. apply orb_false_elim in H as [H _].
  apply bool_decide_eq_false in H.
  destruct (FS.read fs p); [|reflexivity].
  exfalso. apply H. eauto.
Qed.

(** Where nothing is, and no regular file is in the way, [open] fails
    with [Errno 2]. *)
Lemma open_read_missing (fs : FileSystem) (p : string) :
  FS.exists_ fs p = false →
  FS.through_a_file fs p = false →
  open_read fs p =
    Raise (mkExc FileNotFoundError
             ("[Errno 2] No such file or directory: '" +:+ p +:+ "'")).
Proof.
  intros Hmiss Hthrough. unfold open_read.
  rewrite (exists_false_read _ _ Hmiss), Hthrough.
  unfold FS.exists_ in Hmiss. apply orb_false_elim in Hmiss as [_ Hdir].
  rewrite Hdir. by destruct (String.eqb_spec p "") as [->|_].
Qed.

Lemma read_file_missing (fs : FileSystem) (p ext : string) :
  FS.exists_ fs p = false →
  FS.through_a_file fs p = false →
  ext ∈ [".csv"; ".xlsx"; ".parquet"; ".json"; ".txt"] →
  DataIngestor.read_file fs p ext =
    Raise (mkExc FileNotFoundError
             ("[Errno 2] No such file or directory: '" +:+ p +:+ "'")).
Proof.
  intros Hmiss Hthrough Hext.
  repeat (apply elem_of_cons in Hext as [->|Hext]);
    [..|inversion Hext];
    unfold DataIngestor.read_file, pd.read_csv, pd.read_excel,
      pd.read_parquet, pd.read_json; cbn;
    rewrite open_read_missing by done; reflexivity.
Qed.

(** The CSV ingestor checks the path itself, before the reader runs. *)
Lemma csv_missing_path (fs : FileSystem) (file_path : string) :
  Py.endswith file_path ".csv" = true →
  FS.exists_ fs file_path = false →
  CsvDataIngestor.ingest fs file_path =
    Raise (mkExc FileNotFoundError
             ("The file " +:+ file_path +:+ " does not exist.")).
Proof.
  intros Hext Hmiss. unfold CsvDataIngestor.ingest.
  rewrite Hext, Hmiss. reflexivity.
Qed.

(** The other four have no such check: the reader runs, fails to open
    the path, and the failure comes back wrapped in a [ValueError]. *)
Lemma excel_missing_path (fs : FileSystem) (file_path : string) :
  Py.endswith_any file_path [".xlsx"; ".xls"] = true →
  FS.exists_ fs file_path = false →
  FS.through_a_file fs file_path = false →
  ExcelDataIngestor.ingest fs file_path =
    Raise (mkExc ValueError
             ("Failed to ingest Excel file: "
                +:+ "[Errno 2] No such file or directory: '"
                +:+ file_path +:+ "'")).
Proof.
  intros Hext Hmiss Hthrough. unfold ExcelDataIngestor.ingest.
  rewrite Hext. cbn [negb].
  rewrite read_file_missing by (try done; set_solver). reflexivity.
Qed.

Lemma parquet_missing_path (fs : FileSystem) (file_path : string) :
  Py.endswith file_path ".parquet" = true →
  FS.exists_ fs file_path = false →
  FS.through_a_file fs file_path = false →
  ParquetDataIngestor.ingest fs file_path =
    Raise (mkExc ValueError
             ("Failed to ingest Parquet file: "
                +:+ "[Errno 2] No such file or directory: '"
                +:+ file_path +:+ "'")).
Proof.
  intros Hext Hmiss Hthrough. unfold ParquetDataIngestor.ingest.
  rewrite Hext. cbn [negb].
  rewrite read_file_missing by (try done; set_solver). reflexivity.
Qed.

Lemma json_missing_path (fs : FileSystem) (file_path : string) :
  Py.endswith file_path ".json" = true →
  FS.exists_ fs file_path = false →
  FS.through_a_file fs file_path = false →
  JsonDataIngestor.ingest fs file_path =
    Raise (mkExc ValueError
             ("Failed to ingest Parquet file: "
                +:+ "[Errno 2] No such file or directory: '"
                +:+ file_path +:+ "'")).
Proof.
  intros Hext Hmiss Hthrough. unfold JsonDataIngestor.ingest.
  rewrite Hext. cbn [negb].
  rewrite read_file_missing by (try done; set_solver). reflexivity.
Qed.

Lemma txt_missing_path (fs : FileSystem) (file_path : string) :
  Py.endswith file_path ".txt" = true →
  FS.exists_ fs file_path = false →
  FS.through_a_file fs file_path = false →
  TxtDataIngestor.ingest fs file_path =
    Raise (mkExc ValueError
             ("Failed to ingest TXT file: "
                +:+ "[Errno 2] No such file or directory: '"
                +:+ file_path +:+ "'")).
Proof.
  intros Hext Hmiss Hthrough. unfold TxtDataIngestor.ingest.
  rewrite Hext. cbn [negb].
  rewrite read_file_missing by (try done; set_solver). reflexivity.
Qed.

(** C7, at a failing input.  The claim asks every per-format ingestor
    to fail with [FileNotFound] on a path that does not exist.  On the
    empty file system the CSV ingestor does so for [missing.csv]; the
    Excel, Parquet, JSON and TXT ingestors, given a missing path with
    their own extension, let the reader run and fail with a
    [ValueError] instead. *)
Theorem missing_path_not_reported_as_FileNotFound :
  FileNotFound_of (CsvDataIngestor.ingest [] "missing.csv")
  ∧ ExcelDataIngestor.ingest [] "missing.xlsx" =
      Raise (mkExc ValueError
        "Failed to ingest Excel file: [Errno 2] No such file or directory: 'missing.xlsx'")
  ∧ ParquetDataIngestor.ingest [] "missing.parquet" =
      Raise (mkExc ValueError
        "Failed to ingest Parquet file: [Errno 2] No such file or directory: 'missing.parquet'")
  ∧ JsonDataIngestor.ingest [] "missing.json" =
      Raise (mkExc ValueError
        "Failed to ingest Parquet file: [Errno 2] No such file or directory: 'missing.json'")
  ∧ TxtDataIngestor.ingest [] "missing.txt" =
      Raise (mkExc ValueError
        "Failed to ingest TXT file: [Errno 2] No such file or directory: 'missing.txt'")
  ∧ ¬ FileNotFound_of (ExcelDataIngestor.ingest [] "missing.xlsx")
  ∧ ¬ FileNotFound_of (ParquetDataIngestor.ingest [] "missing.parquet")
  ∧ ¬ FileNotFound_of (JsonDataIngestor.ingest [] "missing.json")
  ∧ ¬ FileNotFound_of (TxtDataIngestor.ingest [] "missing.txt").
Proof.
  rewrite excel_missing_path, parquet_missing_path, json_missing_path,
    txt_missing_path, csv_missing_path by reflexivity.
  unfold FileNotFound_of, FileNotFound. cbn.
  repeat split; try reflexivity; intros [=].
Qed.

End missing_paths.

(** ** What the JSON and TXT ingestors record *)

Section labels.
Context {pf : Platform}.

(** Whatever the JSON ingestor returns is labelled [.parquet]. *)
Lemma json_ingestor_label (fs : FileSystem) (file_path : string) (m : FileMetadata) :
  JsonDataIngestor.ingest fs file_path = Return m →
  Py.endswith file_path ".json" = true
  ∧ file_name m = os_path.basename file_path
  ∧ file_type m = ".parquet".
Proof.
  unfold JsonDataIngestor.ingest.
  destruct (Py.endswith file_path ".json"); cbn [negb]; [|discriminate].
  destruct (DataIngestor.read_file fs file_path ".json") as [[df ins]|e];
    cbn; intros [= <-]. auto.
Qed.

(** Whatever the TXT ingestor returns was decoded as JSON, is labelled
    [.json] and names the JSON reader, without a delimiter. *)
Lemma txt_ingestor_label (fs : FileSystem) (file_path : string) (m : FileMetadata) :
  TxtDataIngestor.ingest fs file_path = Return m →
  Py.endswith file_path ".txt" = true
  ∧ file_type m = ".json"
  ∧ (∃ bytes df, FS.read fs file_path = Some bytes
                 ∧ json_decode bytes = Return df
                 ∧ columns m = df_columns df ∧ row_count m = len df)
  ∧ import_instructions m =
      {| function := "pd.read_json";
         arguments := {[ "path_or_buf" := file_path ]} |}.
Proof.
  unfold TxtDataIngestor.ingest.
  destruct (Py.endswith file_path ".txt"); cbn [negb]; [|discriminate].
  unfold DataIngestor.read_file, pd.read_json. cbn.
  destruct (FS.read fs file_path) as [bytes|] eqn:Hread;
    [rewrite (open_read_file _ _ _ Hread)
    |destruct (open_read_no_file _ _ Hread) as [e0 ->]];
    cbn; [|discriminate].
  destruct (json_decode bytes) as [df|e] eqn:Hdec; cbn; intros [= <-].
  cbn. eauto 10.
Qed.

End labels.

(** C1, at two failing inputs.  The claim asks [file_type] to agree
    with the extension of [file_name].  A well-formed [data.json] is
    ingested by the JSON ingestor with [file_type] [.parquet], and a
    file [table.txt] is ingested by the TXT ingestor with [file_type]
    [.json]. *)
Theorem file_type_disagrees_with_extension :
  (∃ m, @JsonDataIngestor.ingest no_archives
          [("data.json", json_file)] "data.json" = Return m
        ∧ file_name m = "data.json"
        ∧ (os_path.splitext (file_name m)).2 = ".json"
        ∧ file_type m = ".parquet")
  ∧ (∃ m, @TxtDataIngestor.ingest no_archives
            [("table.txt", json_file)] "table.txt" = Return m
          ∧ file_name m = "table.txt"
          ∧ (os_path.splitext (file_name m)).2 = ".txt"
          ∧ file_type m = ".json").
Proof.
  split; eexists; (split; [vm_compute; reflexivity|]);
    repeat split; vm_compute; reflexivity.
Qed.

(** C2, at a failing input.  The claim asks a [.txt] path to be parsed
    as tab-delimited text and its recipe to name the tab-delimited
    reader with the delimiter.  The TXT ingestor hands the path to the
    JSON reader: the well-formed tab-delimited [table.txt] is rejected
    although the format reader for [.txt] parses it, and a [table.txt]
    that holds JSON is accepted with a recipe that names
    [pd.read_json] and has no delimiter. *)
Theorem txt_ingestor_uses_json_reader :
  (∃ df ins, @DataIngestor.read_file no_archives
               [("table.txt", tab_delimited_file)] "table.txt" ".txt"
             = Return (df, ins)
             ∧ function ins = "pd.read_csv"
             ∧ arguments ins !! "delimiter" = Some TAB)
  ∧ @TxtDataIngestor.ingest no_archives
      [("table.txt", tab_delimited_file)] "table.txt"
    = Raise (mkExc ValueError
               "Failed to ingest TXT file: File is not a JSON file")
  ∧ (∃ m, @TxtDataIngestor.ingest no_archives
            [("table.txt", json_file)] "table.txt" = Return m
          ∧ function (import_instructions m) = "pd.read_json"
          ∧ arguments (import_instructions m) !! "delimiter" = None
          ∧ arguments (import_instructions m) !! "path_or_buf"
            = Some "table.txt").
Proof.
  split; [|split].
  - do 2 eexists. split; [vm_compute; reflexivity|].
    split; vm_compute; reflexivity.
  - vm_compute. reflexivity.
  - eexists. split; [vm_compute; reflexivity|].
    repeat split; vm_compute; reflexivity.
Qed.

(** ** The CSV scenario *)

(** C3 does not hold as stated: for [sales.csv] with header
    [id,amount] and three data rows the ingestor returns a record, and
    it is not the one the claim gives (the reader is recorded as
    [pd.read_csv], its argument as [filepath_or_buffer]). *)
Lemma sales_csv_not_as_claimed :
  (∃ m, @CsvDataIngestor.ingest no_archives
          [("sales.csv", Sample.sales_csv)] "sales.csv" = Return m)
  ∧ @CsvDataIngestor.ingest no_archives
      [("sales.csv", Sample.sales_csv)] "sales.csv"
    ≠ Return sales_metadata_as_claimed.
Proof.
  split.
  - eexists. vm_compute. reflexivity.
  - vm_compute. intros [=].
Qed.

(** C3, amended.  For a file [sales.csv] that pandas decodes to the
    columns [id], [amount] and three rows, CSV ingestion returns
    exactly: name [sales.csv], type [.csv], columns [id], [amount],
    row count 3, reader [pd.read_csv] with the single argument
    [filepath_or_buffer] = [sales.csv]. *)
Theorem sales_csv_metadata {pf : Platform} (fs : FileSystem)
    (bytes : string) (r1 r2 r3 : list string) :
  FS.read fs "sales.csv" = Some bytes →
  csv_decode "," bytes =
    Return {| df_columns := ["id"; "amount"]; df_rows := [r1; r2; r3] |} →
  CsvDataIngestor.ingest fs "sales.csv" = Return sales_metadata.
Proof.
  intros Hread Hdec. unfold CsvDataIngestor.ingest.
  change (Py.endswith "sales.csv" ".csv") with true. cbn [negb].
  unfold FS.exists_. rewrite Hread.
  rewrite bool_decide_eq_true_2 by eauto. cbn [orb negb].
  unfold DataIngestor.read_file, pd.read_csv, open_read. cbn.
  rewrite Hread. cbn. rewrite Hdec. reflexivity.
Qed.

Lemma sales_csv_metadata_witness :
  @CsvDataIngestor.ingest no_archives
    [("sales.csv", Sample.sales_csv)] "sales.csv" = Return sales_metadata.
Proof.
  apply (@sales_csv_metadata no_archives
           [("sales.csv", Sample.sales_csv)] Sample.sales_csv
           ["1"; "10"] ["2"; "20"] ["3"; "30"]).
  - reflexivity.
  - vm_compute. reflexivity.
Defined.

(** ** Facts about the file system *)

Lemma app_String (a : ascii) (s t : string) :
  String a s +:+ t = String a (s +:+ t).
Proof. reflexivity. Qed.

Lemma app_empty_r (s : string) : s +:+ "" = s.
Proof. induction s as [|a s IH]; [reflexivity|]. rewrite app_String. by f_equal. Qed.

Lemma app_assoc_string (s t u : string) : (s +:+ t) +:+ u = s +:+ (t +:+ u).
Proof.
  induction s as [|a s IH]; [reflexivity|]. rewrite !app_String. by f_equal.
Qed.

Lemma read_key (fs : FileSystem) (p : string) :
  is_Some (FS.read fs p) ↔ p ∈ fst <$> fs.
Proof.
  unfold FS.read. induction fs as [|[q c] fs IH]; cbn.
  - split; [intros [? [=]]|intros H; inversion H].
  - destruct (String.eqb_spec q p) as [->|Hne]; cbn.
    + split; [intros _; left|eauto].
    + rewrite IH. split; [by right|].
      intros [?|?]%elem_of_cons; [congruence|done].
Qed.

Lemma read_write_eq (fs : FileSystem) (p c : string) :
  FS.read (FS.write fs p c) p = Some c.
Proof.
  unfold FS.read. induction fs as [|[q old] fs IH]; cbn.
  - by rewrite String.eqb_refl.
  - destruct (String.eqb_spec q p) as [->|Hne]; cbn.
    + by rewrite String.eqb_refl.
    + apply String.eqb_neq in Hne. by rewrite Hne.
Qed.

Lemma read_write_ne (fs : FileSystem) (p q c : string) :
  p ≠ q → FS.read (FS.write fs p c) q = FS.read fs q.
Proof.
  intros Hpq. unfold FS.read. induction fs as [|[r old] fs IH]; cbn.
  - apply String.eqb_neq in Hpq. by rewrite Hpq.
  - destruct (String.eqb_spec r p) as [->|Hne]; cbn.
    + apply String.eqb_neq in Hpq. by rewrite Hpq.
    + destruct (String.eqb r q); [done|]. apply IH.
Qed.

Lemma keys_write_old (fs : FileSystem) (p c : string) :
  p ∈ fst <$> fs → fst <$> FS.write fs p c = fst <$> fs.
Proof.
  induction fs as [|[q old] fs IH]; cbn; [intros H; inversion H|].
  destruct (String.eqb_spec q p) as [->|Hne]; cbn; [done|].
  intros [?|?]%elem_of_cons; [congruence|]. f_equal. by apply IH.
Qed.

Lemma keys_write_new (fs : FileSystem) (p c : string) :
  p ∉ fst <$> fs → fst <$> FS.write fs p c = (fst <$> fs) ++ [p].
Proof.
  induction fs as [|[q old] fs IH]; cbn; [done|].
  intros [Hne Hnin]%not_elem_of_cons.
  destruct (String.eqb_spec q p) as [->|_]; [done|]. cbn.
  f_equal. by apply IH.
Qed.

Lemma keys_write_incl (fs : FileSystem) (p c q : string) :
  q ∈ fst <$> fs → q ∈ fst <$> FS.write fs p c.
Proof.
  intros Hq. destruct (decide (p ∈ fst <$> fs)) as [Hin|Hnin].
  - by rewrite keys_write_old.
  - rewrite keys_write_new by done. apply elem_of_app. by left.
Qed.

(** However a write ends, it shows nothing, leaves every other path
    alone and removes no file. *)
Lemma write_file_frame {pf : Platform} (p content : string) (w w1 : World)
    (r : Outcome ()) :
  write_file p content w = (r, w1) →
  shown w1 = shown w
  ∧ (∀ q, q ≠ p → FS.read (files w1) q = FS.read (files w) q)
  ∧ (∀ q, q ∈ fst <$> files w → q ∈ fst <$> files w1).
Proof.
  unfold write_file.
  destruct (os_refuses p); [destruct (failed_write_leaves p content)|];
    intros [= <- <-]; cbn; repeat split; try done;
    try (intros q Hq; apply read_write_ne; congruence);
    intros q Hq; by apply keys_write_incl.
Qed.

Lemma strip_prefix_app (pre s : string) :
  FS.strip_prefix pre (pre +:+ s) = Some s.
Proof.
  induction pre as [|a pre IH]; [reflexivity|].
  rewrite app_String. cbn. by rewrite Ascii.eqb_refl.
Qed.

Lemma first_component_plain (n : string) :
  Py.contains n os_path.sep = false → FS.first_component n = n.
Proof.
  induction n as [|a n IH]; [reflexivity|]. cbn.
  intros [Ha Hn]%orb_false_elim. rewrite Ha. f_equal. by apply IH.
Qed.

Lemma plain_not_absolute (n : string) :
  plain_name n → Py.startswith n "/" = false.
Proof.
  intros [Hne Hsep]. destruct n as [|a n]; [done|].
  cbn in Hsep. apply orb_false_elim in Hsep as [Ha _].
  unfold Py.startswith. cbn [String.prefix].
  destruct (ascii_dec "/" a) as [<-|]; [|done].
  by rewrite Ascii.eqb_refl in Ha.
Qed.

(** The path of a plain name in a folder. *)
Lemma join_plain (d n : string) :
  plain_name n → os_path.join d n = os_path.join d "" +:+ n.
Proof.
  intros Hn. unfold os_path.join. rewrite (plain_not_absolute n Hn).
  change (Py.startswith "" "/") with false. cbn [negb].
  destruct (String.eqb d "" || Py.endswith d "/").
  - by rewrite app_empty_r.
  - by rewrite app_empty_r, app_assoc_string.
Qed.

Lemma entry_under_plain (d n : string) :
  plain_name n → FS.entry_under d (os_path.join d n) = Some n.
Proof.
  intros Hn. rewrite join_plain by done. unfold FS.entry_under.
  rewrite strip_prefix_app. destruct Hn as [Hne Hsep].
  rewrite first_component_plain by done. cbn.
  apply String.eqb_neq in Hne. by rewrite Hne.
Qed.

Lemma listdir_elem (fs : FileSystem) (d n : string) :
  n ∈ FS.listdir fs d ↔ ∃ p, p ∈ fst <$> fs ∧ FS.entry_under d p = Some n.
Proof.
  unfold FS.listdir. rewrite elem_of_remove_dups. apply list_elem_of_omap.
Qed.

Lemma filter_extracted_elem (names : list string) (n : string) :
  n ∈ ZipDataIngestor.filter_extracted names ↔
  n ∈ names ∧ Py.startswith n "." = false ∧ Py.startswith n "_" = false.
Proof.
  unfold ZipDataIngestor.filter_extracted.
  rewrite !list_elem_of_In, List.filter_In, andb_true_iff, !negb_true_iff.
  reflexivity.
Qed.

(** ** Saving the metadata *)

(** C9 does not hold as stated: where the metadata folder cannot be
    made, [save_metadata] raises the error of [os.makedirs] to its
    caller and shows no warning. *)
Lemma save_metadata_raises_without_folder :
  @DataIngestor.save_metadata locked_folder [sales_metadata]
    {| files := [("sales.csv", Sample.sales_csv)]; shown := [] |} =
  (Raise (mkExc PermissionError
            "[Errno 13] Permission denied: '/proj/metadata'"),
   {| files := [("sales.csv", Sample.sales_csv)]; shown := [] |}).
Proof. reflexivity. Qed.

(** C9, amended.  Once the metadata folder is there, a write of
    [metadata.json] that fails with an error [e], at [open] or after
    it, makes [save_metadata] return normally: it raises nothing and
    shows one more warning, which carries [e]; every other file is as
    it was, and the batch it was given is a value the caller still
    holds. *)
Theorem save_metadata_write_failure {pf : Platform}
    (metadata : list FileMetadata) (w : World) (e : Exception) :
  os_makedirs PathManager.get_metadata_folder w = (Return (), w) →
  os_refuses metadata_path = Some e →
  ∃ w',
    DataIngestor.save_metadata metadata w = (Return (), w')
    ∧ shown w' = shown w ++ [Warned ("Failed to save metadata: " +:+ str e)]
    ∧ ∀ q, q ≠ metadata_path → FS.read (files w') q = FS.read (files w) q.
Proof.
  intros Hdir Hwrite. unfold DataIngestor.save_metadata.
  unfold mbind at 1, Run_bind. rewrite Hdir.
  unfold try_catch, mbind, Run_bind, write_file. fold metadata_path.
  rewrite Hwrite.
  destruct (failed_write_leaves metadata_path (json_dumps metadata));
    (eexists; split; [reflexivity|]; split; [reflexivity|]);
    intros q Hq; cbn; [by apply read_write_ne|reflexivity].
Qed.

Lemma save_metadata_write_failure_witness :
  ∃ w',
    @DataIngestor.save_metadata Sample.full_disk [sales_metadata]
      {| files := [("sales.csv", Sample.sales_csv);
                   ("/proj/metadata/metadata.json", "[]")];
         shown := [] |} = (Return (), w')
    ∧ shown w' =
        [] ++ [Warned "Failed to save metadata: [Errno 28] No space left on device"]
    ∧ ∀ q, q ≠ @metadata_path Sample.full_disk →
           FS.read (files w') q
           = FS.read [("sales.csv", Sample.sales_csv);
                      ("/proj/metadata/metadata.json", "[]")] q.
Proof.
  apply (@save_metadata_write_failure Sample.full_disk [sales_metadata]
           {| files := [("sales.csv", Sample.sales_csv);
                        ("/proj/metadata/metadata.json", "[]")];
              shown := [] |}
           (mkExc OSError "[Errno 28] No space left on device")).
  - reflexivity.
  - reflexivity.
Defined.

(** ** The ZIP ingestor, step by step *)

Section zip.
Context {pf : Platform}.

(** The loop never raises and never touches the files: each name adds
    its record or its warning, in order. *)
Lemma for_each_file_turns (d : string) (names : list string)
    (metadata : list FileMetadata) (w : World) :
  ZipDataIngestor.for_each_file d names metadata w =
    (Return (metadata ++ records (files w) d names),
     {| files := files w;
        shown := shown w ++ warnings (files w) d names |}).
Proof.
  revert metadata w. induction names as [|n names IH]; intros metadata w.
  - cbn. rewrite !app_nil_r. by destruct w.
  - cbn [ZipDataIngestor.for_each_file].
    unfold records, warnings. cbn [omap list_omap]. fold (records (files w) d names).
    fold (warnings (files w) d names). unfold turn.
    destruct (bool_decide ((os_path.splitext n).2 ∈ ZipDataIngestor.supported_formats));
      cbn [negb].
    + unfold mbind at 1, Run_bind, try_catch, reading.
      unfold mbind at 1, Run_bind.
      destruct (DataIngestor.read_file (files w) (os_path.join d n)
                  (os_path.splitext n).2) as [[df ins]|e].
      * cbn. rewrite IH. by rewrite <- app_assoc.
      * unfold mbind, Run_bind, warn, show, mret, Run_ret. cbn.
        rewrite IH. cbn. by rewrite <- app_assoc.
    + unfold mbind, Run_bind, warn, show. cbn. rewrite IH. cbn.
      by rewrite <- app_assoc.
Qed.

Lemma extract_members_unpack (members : list (string * string)) (d : string)
    (w : World) :
  Forall (λ m, os_refuses (os_path.join d "" +:+ m.1) = None) members →
  extract_members members d w =
    (Return (), {| files := unpack (files w) members d; shown := shown w |}).
Proof.
  revert w. induction members as [|[n c] members IH]; intros w Hall.
  - cbn. by destruct w.
  - apply Forall_cons in Hall as [Hn Hall]. cbn [fst] in Hn.
    cbn [extract_members]. unfold mbind, Run_bind, write_file.
    rewrite Hn. rewrite IH by done. reflexivity.
Qed.

(** Under [extracts] the ingestor extracts, lists, filters, and then
    either reports an empty archive or runs the loop. *)
Lemma ingest_extracts (file_path : string) (w : World)
    (members : list (string * string)) :
  extracts file_path w members →
  let fs' := unpack (files w) members folder in
  let w' := {| files := fs'; shown := shown w |} in
  let filtered := ZipDataIngestor.filter_extracted (FS.listdir fs' folder) in
  ZipDataIngestor.ingest file_path w =
    if bool_decide (filtered = []) then (Raise EmptyArchive, w')
    else ZipDataIngestor.for_each_file folder filtered [] w'.
Proof.
  intros (Hzip & (bytes & Hread & Hdec) & Hdir & Hnofile & Hall). cbn zeta.
  unfold ZipDataIngestor.ingest. rewrite Hzip. cbn [negb].
  unfold mbind at 1, Run_bind, reading.
  unfold FS.exists_. rewrite Hread.
  rewrite (bool_decide_eq_true_2 (is_Some (Some bytes))) by eauto.
  cbn [orb negb].
  unfold mbind at 1, Run_bind, os_makedirs. rewrite Hdir, Hnofile.
  unfold mbind at 1, Run_bind, zipfile_extractall.
  unfold mbind at 1, Run_bind, reading.
  rewrite (open_read_file _ _ _ Hread), Hdec.
  rewrite extract_members_unpack by done.
  unfold mbind at 1, Run_bind, os_listdir, reading. cbn [files shown].
  destruct (bool_decide _); reflexivity.
Qed.

Lemma unpack_cons (fs : FileSystem) (m : string * string)
    (members : list (string * string)) (d : string) :
  unpack fs (m :: members) d =
    unpack (FS.write fs (os_path.join d "" +:+ m.1) m.2) members d.
Proof. reflexivity. Qed.

Lemma read_unpack_other (fs : FileSystem) (members : list (string * string))
    (d p : string) :
  (∀ m, m ∈ members → os_path.join d "" +:+ m.1 ≠ p) →
  FS.read (unpack fs members d) p = FS.read fs p.
Proof.
  revert fs. induction members as [|m members IH]; intros fs Hother; [done|].
  rewrite unpack_cons, IH by (intros; apply Hother; by right).
  apply read_write_ne, Hother. by left.
Qed.

Lemma keys_unpack_incl (fs : FileSystem) (members : list (string * string))
    (d q : string) :
  q ∈ fst <$> fs → q ∈ fst <$> unpack fs members d.
Proof.
  revert fs. induction members as [|m members IH]; intros fs Hq; [done|].
  rewrite unpack_cons. by apply IH, keys_write_incl.
Qed.

(** The format reader looks at nothing but the bytes at the path. *)
Lemma read_file_same_bytes (fs fs' : FileSystem) (p ext bytes : string) :
  FS.read fs p = Some bytes →
  FS.read fs' p = Some bytes →
  DataIngestor.read_file fs' p ext = DataIngestor.read_file fs p ext.
Proof.
  intros Hfs Hfs'. unfold DataIngestor.read_file, pd.read_csv, pd.read_excel,
    pd.read_parquet, pd.read_json.
  by rewrite (open_read_file _ _ _ Hfs), (open_read_file _ _ _ Hfs').
Qed.


(** Whatever the ingestor returns is the list of records of the names
    it listed, read from the files it leaves behind. *)
Lemma ingest_Return_inv (file_path : string) (w w' : World)
    (ms : list FileMetadata) :
  ZipDataIngestor.ingest file_path w = (Return ms, w') →
  ∃ names, ms = records (files w') folder names.
Proof.
  unfold ZipDataIngestor.ingest.
  destruct (Py.endswith file_path ".zip"); cbn [negb]; [|discriminate].
  unfold mbind at 1, Run_bind, reading.
  destruct (FS.exists_ (files w) file_path); cbn [negb]; [|discriminate].
  unfold mbind at 1, Run_bind.
  destruct (os_makedirs folder w) as [[[]|e0] w0]; [|discriminate].
  unfold mbind at 1, Run_bind.
  destruct (zipfile_extractall file_path folder w0) as [[[]|e1] w2];
    [|discriminate].
  unfold mbind at 1, Run_bind, os_listdir, reading.
  destruct (bool_decide _); [discriminate|].
  rewrite for_each_file_turns. intros [= <- <-]. cbn. eauto.
Qed.

End zip.

(** ** Empty archives *)



(** ** Files left in the extraction folder *)

Section leftovers.
Context {pf : Platform}.

Lemma read_file_Return (fs : FileSystem) (p ext : string)
    (df : DataFrame) (ins : ImportInstructions) :
  DataIngestor.read_file fs p ext = Return (df, ins) →
  ext ∈ ZipDataIngestor.supported_formats ∧ is_Some (FS.read fs p).
Proof.
  unfold DataIngestor.read_file, pd.read_csv, pd.read_excel,
    pd.read_parquet, pd.read_json.
  intros Hret. split.
  - repeat match type of Hret with
           | (if String.eqb ?a ?b then _ else _) = _ =>
               destruct (String.eqb_spec a b) as [->|?]; [set_solver|]
           end.
    discriminate.
  - destruct (FS.read fs p) eqn:Hnone; [eauto|].
    destruct (open_read_no_file _ _ Hnone) as [e Hopen].
    rewrite Hopen in Hret.
    repeat match type of Hret with
           | (if ?c then _ else _) = _ => destruct c; [discriminate|]
           end.
    discriminate.
Qed.

Lemma eligible_listed (fs : FileSystem) (n : string) :
  eligible n →
  os_path.join folder n ∈ fst <$> fs →
  n ∈ ZipDataIngestor.filter_extracted (FS.listdir fs folder).
Proof.
  intros (Hplain & Hdot & Hunder) Hkey.
  apply filter_extracted_elem. split; [|done].
  apply listdir_elem. exists (os_path.join folder n).
  split; [done|]. by apply entry_under_plain.
Qed.

(** C10. The ingestor lists the extraction folder, not the archive.
    Take an archive that extracts, and a file the folder already holds
    under an eligible name [n] that is not a member of the archive and
    that the format reader can read as its extension says.  Then the
    ingestor returns a sequence, and the record of [n] is in it. *)
Theorem leftover_file_is_ingested (file_path : string) (w : World)
    (members : list (string * string)) (n : string)
    (df : DataFrame) (ins : ImportInstructions) :
  extracts file_path w members →
  eligible n →
  n ∉ fst <$> members →
  DataIngestor.read_file (files w) (os_path.join folder n)
    (os_path.splitext n).2 = Return (df, ins) →
  ∃ ms w',
    ZipDataIngestor.ingest file_path w = (Return ms, w')
    ∧ {| file_name := n;
         file_type := (os_path.splitext n).2;
         columns := df_columns df;
         row_count := len df;
         import_instructions := ins |} ∈ ms.
Proof.
  intros Hex Hel Hnot Hread.
  destruct (read_file_Return _ _ _ _ _ Hread) as [Hsupp Hsome].
  pose proof (ingest_extracts _ _ _ Hex) as Hing. cbn zeta in Hing.
  set (fs' := unpack (files w) members folder) in *.
  assert (Hin : n ∈ ZipDataIngestor.filter_extracted (FS.listdir fs' folder)).
  { apply eligible_listed; [done|].
    apply keys_unpack_incl. by apply read_key. }
  rewrite bool_decide_eq_false_2 in Hing
    by (intros Hnil; rewrite Hnil in Hin; inversion Hin).
  rewrite for_each_file_turns in Hing. cbn [app files shown] in Hing.
  do 2 eexists. split; [exact Hing|].
  apply list_elem_of_omap. exists n. split; [done|].
  unfold turn. rewrite bool_decide_eq_true_2 by done.
  destruct Hsome as [bytes Hbytes].
  rewrite (read_file_same_bytes (files w) fs' _ _ bytes); [by rewrite Hread|done|].
  rewrite <- Hbytes.
  apply read_unpack_other. intros m Hm Heq.
  {
    destruct Hel as (Hplain & _).
    rewrite (join_plain folder n) in Heq by done.
    apply (inj (String.app _)) in Heq.
    apply Hnot. rewrite <- Heq. by apply list_elem_of_fmap_2. }
Qed.

End leftovers.

Lemma bundle_extracts : @extracts bundle "/data/bundle.zip" bundle_world bundle_members.
Proof.
  split; [reflexivity|]. split; [exists "BUNDLE"; split; reflexivity|].
  split; [reflexivity|]. split; [reflexivity|].
  repeat constructor.
Defined.

Lemma leftover_file_is_ingested_witness :
  ∃ ms w',
    @ZipDataIngestor.ingest bundle "/data/bundle.zip" bundle_world = (Return ms, w')
    ∧ old_csv_metadata ∈ ms.
Proof.
  apply (@leftover_file_is_ingested bundle "/data/bundle.zip" bundle_world
           bundle_members "old.csv"
           {| df_columns := ["id"; "amount"];
              df_rows := [["1"; "10"]; ["2"; "20"]; ["3"; "30"]] |}
           {| function := "pd.read_csv";
              arguments :=
                {[ "filepath_or_buffer" := "/proj/extracted_data/old.csv" ]} |}).
  - exact bundle_extracts.
  - repeat split; try reflexivity. discriminate.
  - cbn. intros Hin.
    repeat (apply elem_of_cons in Hin as [Hin|Hin]; [discriminate Hin|]).
    inversion Hin.
  - vm_compute. reflexivity.
Defined.

(** ** One valid member, one rejected member *)

(** C4, at a failing input.  The claim asks for exactly one record,
    that of the valid CSV member, and the method's docstring promises
    the metadata of each file extracted from the archive.  The archive
    [bundle.zip] has exactly one well-formed CSV member, [a.csv], and
    one unsupported member, [notes.md]; ingested while the extraction
    folder still holds [old.csv] from an earlier run, it gives two
    records: that of [a.csv], and that of [old.csv], which is no member
    of the archive.  The warning about [notes.md] is the only thing
    shown. *)
Theorem bundle_with_leftover_gives_two :
  ∃ ms w',
    @ZipDataIngestor.ingest bundle "/data/bundle.zip" bundle_world = (Return ms, w')
    ∧ length ms = 2
    ∧ a_csv_metadata ∈ ms
    ∧ old_csv_metadata ∈ ms
    ∧ ("old.csv" ∉ fst <$> bundle_members)
    ∧ shown w' = [Warned "Unsupported file type: notes.md. Skipping."].
Proof.
  do 2 eexists. split; [vm_compute; reflexivity|].
  split; [reflexivity|].
  split; [right; left|]. split; [left|]. split; [|reflexivity].
  cbn. intros Hin.
  repeat (apply elem_of_cons in Hin as [Hin|Hin]; [discriminate Hin|]).
  inversion Hin.
Qed.

(** Members that lie in a folder of the archive are not ingested
    either: the loop meets the folder, not the files in it. *)
Lemma nested_members_are_skipped :
  ∃ w',
    @ZipDataIngestor.ingest nested "/data/nested.zip" nested_world = (Return [], w')
    ∧ shown w' = [Warned "Unsupported file type: d. Skipping."].
Proof. eexists. split; [vm_compute; reflexivity|reflexivity]. Qed.

Section isolation.
Context {pf : Platform}.

Lemma filter_remove_dups (f : string → bool) (l : list string) :
  List.filter f (remove_dups l) = remove_dups (List.filter f l).
Proof.
  induction l as [|x l IH]; [reflexivity|]. cbn.
  destruct (decide_rel elem_of x l) as [Hin|Hnin].
  - rewrite IH. destruct (f x) eqn:Hfx; [|done]. cbn.
    destruct (decide_rel elem_of x (List.filter f l)) as [|Hnot]; [done|].
    exfalso. apply Hnot. apply list_elem_of_In, List.filter_In.
    split; [by apply list_elem_of_In|done].
  - cbn. rewrite IH. destruct (f x) eqn:Hfx; [|done]. cbn.
    destruct (decide_rel elem_of x (List.filter f l)) as [Hyes|]; [|done].
    exfalso. apply Hnin.
    apply list_elem_of_In in Hyes. apply List.filter_In in Hyes as [Hyes _].
    by apply list_elem_of_In.
Qed.

Lemma remove_dups_nil_inv (l : list string) : remove_dups l = [] → l = [].
Proof.
  destruct l as [|x l]; [done|]. intros Hnil.
  assert (Hx : x ∈ remove_dups (x :: l)) by (apply elem_of_remove_dups; left).
  rewrite Hnil in Hx. inversion Hx.
Qed.

Lemma filter_eligible (n : string) :
  eligible n →
  negb (Py.startswith n ".") && negb (Py.startswith n "_") = true.
Proof. intros (_ & -> & ->). reflexivity. Qed.

Lemma keys_write_elem (fs : FileSystem) (p c q : string) :
  q ∈ fst <$> FS.write fs p c ↔ q ∈ fst <$> fs ∨ q = p.
Proof.
  destruct (decide (p ∈ fst <$> fs)) as [Hin|Hnin].
  - rewrite keys_write_old by done. split; [auto|]. by intros [?| ->].
  - rewrite keys_write_new by done.
    rewrite elem_of_app, list_elem_of_singleton. reflexivity.
Qed.

Lemma keys_unpack_elem (fs : FileSystem) (members : list (string * string))
    (d q : string) :
  q ∈ fst <$> unpack fs members d ↔
  q ∈ fst <$> fs ∨ ∃ m, m ∈ members ∧ q = os_path.join d "" +:+ m.1.
Proof.
  revert fs. induction members as [|m members IH]; intros fs.
  - cbn. split; [auto|]. intros [?|(m & Hm & _)]; [done|inversion Hm].
  - rewrite unpack_cons, IH, keys_write_elem. split.
    + intros [[?| ->]|(m' & Hm' & ->)]; [by left|right..].
      * exists m. split; [left|done].
      * exists m'. split; [by right|done].
    + intros [?|(m' & [->|Hm']%elem_of_cons & ->)]; [by left; left|by left; right|].
      right. by exists m'.
Qed.

(** A path that some member is written to holds the bytes of the
    members written to it, when they all agree. *)
Lemma read_unpack_member (fs : FileSystem) (members : list (string * string))
    (d p c : string) :
  (∀ m, m ∈ members → os_path.join d "" +:+ m.1 = p → m.2 = c) →
  FS.read fs p = Some c ∨ (∃ m, m ∈ members ∧ os_path.join d "" +:+ m.1 = p) →
  FS.read (unpack fs members d) p = Some c.
Proof.
  revert fs. induction members as [|m members IH]; intros fs Hagree Hsome.
  - destruct Hsome as [?|(m & Hm & _)]; [done|inversion Hm].
  - rewrite unpack_cons. apply IH.
    + intros m' Hm'. apply Hagree. by right.
    + destruct (decide (os_path.join d "" +:+ m.1 = p)) as [Heq|Hne].
      * left. rewrite Heq, (Hagree m) by (done || by left).
        apply read_write_eq.
      * destruct Hsome as [Hread|(m' & [->|Hm']%elem_of_cons & Heq)];
          [left; by rewrite read_write_ne|done|right; by exists m'].
Qed.

Lemma prefix_empty (s : string) : String.prefix "" s = true.
Proof. by destruct s. Qed.

Lemma startswith_char (n : string) (c : ascii) :
  Py.startswith n (String c "") = true ↔ ∃ rest, n = String c rest.
Proof.
  unfold Py.startswith. destruct n as [|a n]; cbn [String.prefix].
  - split; [done|]. by intros [? ?].
  - destruct (ascii_dec c a) as [->|Hne].
    + rewrite prefix_empty. split; eauto.
    + split; [done|]. intros [rest [= -> _]]. done.
Qed.

(** The entry of a hidden member does not pass the filter. *)
Lemma hidden_entry (d n name : string) :
  hidden n →
  FS.entry_under d (os_path.join d "" +:+ n) = Some name →
  negb (Py.startswith name ".") && negb (Py.startswith name "_") = false.
Proof.
  unfold FS.entry_under. rewrite strip_prefix_app.
  destruct (String.eqb (FS.first_component n) ""); [done|].
  intros [[rest ->]%startswith_char|[rest ->]%startswith_char] [= <-]; cbn;
    by rewrite prefix_empty.
Qed.

Lemma only_element (L : list string) (o : string) :
  NoDup L → (∀ n, n ∈ L ↔ n = o) → L = [o].
Proof.
  intros Hnd Hel. destruct L as [|y [|z L]].
  - exfalso. assert (H : o ∈ @nil string) by by apply Hel. inversion H.
  - f_equal. apply Hel. left.
  - exfalso. apply NoDup_cons in Hnd as [Hy _]. apply Hy.
    assert (y = o) as -> by (apply Hel; left).
    assert (z = o) as -> by (apply Hel; right; left). left.
Qed.

Lemma two_elements (L : list string) (a b : string) :
  NoDup L → a ≠ b → (∀ n, n ∈ L ↔ n = a ∨ n = b) →
  L = [a; b] ∨ L = [b; a].
Proof.
  intros Hnd Hne Hel. destruct L as [|x L].
  - exfalso. assert (H : a ∈ @nil string) by (apply Hel; by left). inversion H.
  - apply NoDup_cons in Hnd as [Hx Hnd].
    assert (Hxab : x = a ∨ x = b) by (apply Hel; left).
    destruct Hxab as [-> | ->]; [left|right]; f_equal;
      apply only_element; try done; intros n; split.
    + intros Hn. destruct (proj1 (Hel n) (list_elem_of_further _ _ _ Hn))
        as [->|]; [done|done].
    + intros ->. assert (H : b ∈ a :: L) by (apply Hel; by right).
      apply elem_of_cons in H as [?|?]; [congruence|done].
    + intros Hn. destruct (proj1 (Hel n) (list_elem_of_further _ _ _ Hn))
        as [ | ->]; [done|done].
    + intros ->. assert (H : a ∈ b :: L) by (apply Hel; by left).
      apply elem_of_cons in H as [?|?]; [congruence|done].
Qed.

(** Extract an archive whose members are [a], [b] and hidden ones into
    a folder that lists no eligible entry: exactly [a] and [b] are left
    to go on with, in one order or the other, each holding its bytes. *)
Lemma unpack_pair (fs : FileSystem) (members : list (string * string))
    (a ca b cb : string) :
  ZipDataIngestor.filter_extracted (FS.listdir fs folder) = [] →
  eligible a → eligible b → a ≠ b →
  (a, ca) ∈ members → (b, cb) ∈ members →
  (∀ m, m ∈ members → m = (a, ca) ∨ m = (b, cb) ∨ hidden m.1) →
  let fs' := unpack fs members folder in
  let filtered := ZipDataIngestor.filter_extracted (FS.listdir fs' folder) in
  (filtered = [a; b] ∨ filtered = [b; a])
  ∧ FS.read fs' (os_path.join folder a) = Some ca
  ∧ FS.read fs' (os_path.join folder b) = Some cb.
Proof.
  intros Hempty Hela Helb Hne Ha Hb Hall. cbn zeta.
  pose proof Hela as (Hpa & Hdota & Hunda).
  pose proof Helb as (Hpb & Hdotb & Hundb).
  assert (Hnothid : ∀ n, eligible n → ¬ hidden n).
  { intros n (_ & Hd & Hu) [H|H]; congruence. }
  split; [|split].
  - apply two_elements; [|done|].
    + unfold ZipDataIngestor.filter_extracted, FS.listdir.
      rewrite filter_remove_dups. apply NoDup_remove_dups.
    + intros n. rewrite filter_extracted_elem, listdir_elem. split.
      * intros ((p & Hp & Hentry) & Hd & Hu).
        apply keys_unpack_elem in Hp as [Hp|(m & Hm & ->)].
        -- exfalso.
           assert (Hin : n ∈ ZipDataIngestor.filter_extracted
                             (FS.listdir fs folder)).
           { apply filter_extracted_elem. split; [|done].
             apply listdir_elem. eauto. }
           rewrite Hempty in Hin. inversion Hin.
        -- destruct (Hall m Hm) as [-> | [-> | Hhid]]; cbn [fst] in Hentry.
           ++ left. rewrite <- (join_plain folder a) in Hentry by done.
              rewrite entry_under_plain in Hentry by done. congruence.
           ++ right. rewrite <- (join_plain folder b) in Hentry by done.
              rewrite entry_under_plain in Hentry by done. congruence.
           ++ exfalso. pose proof (hidden_entry _ _ _ Hhid Hentry) as Hf.
              rewrite Hd, Hu in Hf. discriminate.
      * intros [-> | ->].
        -- split; [|done]. exists (os_path.join folder a).
           split; [|by apply entry_under_plain].
           apply keys_unpack_elem. right. exists (a, ca).
           split; [done|]. by apply join_plain.
        -- split; [|done]. exists (os_path.join folder b).
           split; [|by apply entry_under_plain].
           apply keys_unpack_elem. right. exists (b, cb).
           split; [done|]. by apply join_plain.
  - apply read_unpack_member.
    + intros m Hm Heq. rewrite (join_plain folder a) in Heq by done.
      apply (inj (String.app _)) in Heq.
      destruct (Hall m Hm) as [-> | [-> | Hhid]]; [done|done|].
      rewrite Heq in Hhid. by apply Hnothid in Hhid.
    + right. exists (a, ca). split; [done|]. symmetry. by apply join_plain.
  - apply read_unpack_member.
    + intros m Hm Heq. rewrite (join_plain folder b) in Heq by done.
      apply (inj (String.app _)) in Heq.
      destruct (Hall m Hm) as [-> | [-> | Hhid]]; [by cbn in Heq|done|].
      rewrite Heq in Hhid. by apply Hnothid in Hhid.
    + right. exists (b, cb). split; [done|]. symmetry. by apply join_plain.
Qed.

Lemma turn_csv (fs : FileSystem) (a ca : string) (df : DataFrame) :
  FS.read fs (os_path.join folder a) = Some ca →
  (os_path.splitext a).2 = ".csv" →
  csv_decode "," ca = Return df →
  turn fs folder a =
    inl {| file_name := a;
           file_type := ".csv";
           columns := df_columns df;
           row_count := len df;
           import_instructions :=
             {| function := "pd.read_csv";
                arguments :=
                  {[ "filepath_or_buffer" := os_path.join folder a ]} |} |}.
Proof.
  intros Hread Hext Hdec. unfold turn. rewrite Hext.
  rewrite bool_decide_eq_true_2 by set_solver.
  unfold DataIngestor.read_file, pd.read_csv, open_read.
  cbn [String.eqb Ascii.eqb Bool.eqb]. rewrite Hread.
  unfold mbind, Outcome_bind. rewrite Hdec. reflexivity.
Qed.

Lemma turn_rejected (fs : FileSystem) (b cb : string) (e : Exception) :
  FS.read fs (os_path.join folder b) = Some cb →
  DataIngestor.read_file [(os_path.join folder b, cb)]
    (os_path.join folder b) (os_path.splitext b).2 = Raise e →
  turn fs folder b = inr (rejection_warning b e).
Proof.
  intros Hread Hrej. unfold turn, rejection_warning.
  case_bool_decide; [|reflexivity].
  rewrite (read_file_same_bytes [(os_path.join folder b, cb)] fs _ _ cb), Hrej;
    [reflexivity| |done].
  unfold FS.read. cbn. by rewrite String.eqb_refl.
Qed.

(** X20. Take an archive that extracts and whose members, apart from
    hidden ones, are a well-formed CSV file [a] and a file [b] that the
    format reader rejects (unsupported extension, or bytes that do not
    decode), both at the top level of the archive, under names without
    a separator that start neither with [.] nor with [_]; and let the
    extraction folder list no such entry beforehand.  Then the ingestor
    returns normally, the sequence holds exactly the record of [a], and
    exactly one warning, about [b], has been shown. *)
Theorem valid_csv_and_rejected_member (file_path : string) (w : World)
    (members : list (string * string)) (a ca b cb : string)
    (df : DataFrame) (e : Exception) :
  extracts file_path w members →
  (a, ca) ∈ members → (b, cb) ∈ members →
  (∀ m, m ∈ members → m = (a, ca) ∨ m = (b, cb) ∨ hidden m.1) →
  ZipDataIngestor.filter_extracted (FS.listdir (files w) folder) = [] →
  eligible a → eligible b → a ≠ b →
  (os_path.splitext a).2 = ".csv" →
  csv_decode "," ca = Return df →
  DataIngestor.read_file [(os_path.join folder b, cb)]
    (os_path.join folder b) (os_path.splitext b).2 = Raise e →
  ∃ w',
    ZipDataIngestor.ingest file_path w =
      (Return [ {| file_name := a;
                   file_type := ".csv";
                   columns := df_columns df;
                   row_count := len df;
                   import_instructions :=
                     {| function := "pd.read_csv";
                        arguments :=
                          {[ "filepath_or_buffer" := os_path.join folder a ]} |} |} ],
       w')
    ∧ shown w' = shown w ++ [Warned (rejection_warning b e)].
Proof.
  intros Hex Ha Hb Hall Hempty Hela Helb Hne Hext Hdec Hrej.
  pose proof (ingest_extracts _ _ _ Hex) as Hing. cbn zeta in Hing.
  destruct (unpack_pair (files w) members a ca b cb
              Hempty Hela Helb Hne Ha Hb Hall) as (Hlist & Hra & Hrb).
  destruct Hlist as [Hlist|Hlist]; rewrite Hlist in Hing;
    rewrite bool_decide_eq_false_2 in Hing by done;
    rewrite for_each_file_turns in Hing; cbn [files shown app] in Hing;
    unfold records, warnings in Hing; cbn [omap list_omap] in Hing;
    rewrite (turn_csv _ _ _ _ Hra Hext Hdec) in Hing;
    rewrite (turn_rejected _ _ _ _ Hrb Hrej) in Hing;
    (eexists; split; [exact Hing|reflexivity]).
Qed.

End isolation.

Lemma valid_csv_and_rejected_member_witness :
  ∃ w',
    @ZipDataIngestor.ingest bundle "/data/bundle.zip" clean_world =
      (Return [ {| file_name := "a.csv";
                   file_type := ".csv";
                   columns := ["x"; "y"];
                   row_count := 2;
                   import_instructions :=
                     {| function := "pd.read_csv";
                        arguments :=
                          {[ "filepath_or_buffer" :=
                               "/proj/extracted_data/a.csv" ]} |} |} ],
       w')
    ∧ shown w' = [Warned "Unsupported file type: notes.md. Skipping."].
Proof.
  apply (@valid_csv_and_rejected_member bundle "/data/bundle.zip" clean_world
           bundle_members "a.csv" Sample.two_rows_csv "notes.md" "hello"
           {| df_columns := ["x"; "y"]; df_rows := [["1"; "2"]; ["3"; "4"]] |}
           (UnsupportedFormat ".md")).
  - split; [reflexivity|]. split; [exists "BUNDLE"; split; reflexivity|].
    split; [reflexivity|]. split; [reflexivity|]. repeat constructor.
  - left.
  - right. left.
  - intros m Hm.
    repeat (apply elem_of_cons in Hm as [->|Hm]); [by left|by right; left|].
    inversion Hm.
  - reflexivity.
  - repeat split; try reflexivity. discriminate.
  - repeat split; try reflexivity. discriminate.
  - discriminate.
  - reflexivity.
  - reflexivity.
  - reflexivity.
Defined.

(** ** Reloading what was ingested *)

Section reload.
Context {pf : Platform}.

Lemma bind_kwargs_single (k v : string) (optional : list string) :
  DataLoader.bind_kwargs {[ k := v ]} k optional = Return v.
Proof.
  unfold DataLoader.bind_kwargs. rewrite lookup_singleton_eq.
  rewrite bool_decide_eq_true_2; [reflexivity|].
  rewrite dom_singleton_L. set_solver.
Qed.

(** Evaluating the recorded function on the recorded arguments repeats
    the read that produced them. *)
Lemma recipe_reloads (fs : FileSystem) (p ext : string) (df : DataFrame)
    (ins : ImportInstructions) :
  DataIngestor.read_file fs p ext = Return (df, ins) →
  (f ← DataLoader.eval (function ins); DataLoader.call fs f (arguments ins))
    = Return df.
Proof.
  unfold DataIngestor.read_file.
  destruct (String.eqb ext ".csv");
    [|destruct (String.eqb ext ".xlsx");
      [|destruct (String.eqb ext ".parquet");
        [|destruct (String.eqb ext ".json");
          [|destruct (String.eqb ext ".txt"); [|discriminate]]]]].
  - destruct (pd.read_csv fs p ",") as [df'|e] eqn:Hread; [|discriminate].
    intros [= -> <-]. cbn [function arguments].
    change (DataLoader.eval "pd.read_csv") with (Return DataLoader.pd_read_csv).
    cbn [mbind Outcome_bind DataLoader.call].
    rewrite bind_kwargs_single. cbn [mbind Outcome_bind].
    rewrite lookup_singleton_ne by discriminate. exact Hread.
  - destruct (pd.read_excel fs p) as [df'|e] eqn:Hread; [|discriminate].
    intros [= -> <-]. cbn [function arguments].
    change (DataLoader.eval "pd.read_excel") with (Return DataLoader.pd_read_excel).
    cbn [mbind Outcome_bind DataLoader.call].
    rewrite bind_kwargs_single. exact Hread.
  - destruct (pd.read_parquet fs p) as [df'|e] eqn:Hread; [|discriminate].
    intros [= -> <-]. cbn [function arguments].
    change (DataLoader.eval "pd.read_parquet")
      with (Return DataLoader.pd_read_parquet).
    cbn [mbind Outcome_bind DataLoader.call].
    rewrite bind_kwargs_single. exact Hread.
  - destruct (pd.read_json fs p) as [df'|e] eqn:Hread; [|discriminate].
    intros [= -> <-]. cbn [function arguments].
    change (DataLoader.eval "pd.read_json") with (Return DataLoader.pd_read_json).
    cbn [mbind Outcome_bind DataLoader.call].
    rewrite bind_kwargs_single. exact Hread.
  - destruct (pd.read_csv fs p TAB) as [df'|e] eqn:Hread; [|discriminate].
    intros [= -> <-]. cbn [function arguments].
    change (DataLoader.eval "pd.read_csv") with (Return DataLoader.pd_read_csv).
    cbn [mbind Outcome_bind DataLoader.call].
    unfold DataLoader.bind_kwargs.
    rewrite (lookup_insert_ne _ "delimiter" "filepath_or_buffer") by done.
    rewrite lookup_singleton_eq.
    rewrite bool_decide_eq_true_2
      by (rewrite dom_insert_L, dom_singleton_L; set_solver).
    cbn [mbind Outcome_bind]. rewrite lookup_insert_eq. exact Hread.
Qed.

Lemma load_entry_describes (fs : FileSystem) (m : FileMetadata) :
  describes fs m →
  ∃ df, DataLoader.load_entry fs m = Return df
        ∧ df_columns df = columns m
        ∧ len df = row_count m.
Proof.
  intros (p & ext & df & Hread & Hcols & Hrows).
  exists df. unfold DataLoader.load_entry.
  rewrite (recipe_reloads _ _ _ _ _ Hread). auto.
Qed.

Lemma turn_describes (fs : FileSystem) (d n : string) (m : FileMetadata) :
  turn fs d n = inl m → describes fs m.
Proof.
  unfold turn. destruct (bool_decide _); [|discriminate].
  destruct (DataIngestor.read_file fs (os_path.join d n) (os_path.splitext n).2)
    as [[df ins]|e] eqn:Hread; [|discriminate].
  intros [= <-]. exists (os_path.join d n), (os_path.splitext n).2, df. auto.
Qed.

Lemma ingested_describes (fs : FileSystem) (m : FileMetadata) :
  ingested fs m → describes fs m.
Proof.
  destruct 1 as [fs p m H|fs p m H|fs p m H|fs p m H|fs p m H|p w ms w' m H Hin].
  - unfold CsvDataIngestor.ingest in H.
    destruct (Py.endswith p ".csv"); cbn [negb] in H; [|discriminate].
    destruct (FS.exists_ fs p); cbn [negb] in H; [|discriminate].
    destruct (DataIngestor.read_file fs p ".csv") as [[df ins]|e] eqn:Hread;
      cbn in H; [|discriminate].
    injection H as <-. exists p, ".csv", df. auto.
  - unfold ExcelDataIngestor.ingest in H.
    destruct (Py.endswith_any p _); cbn [negb] in H; [|discriminate].
    destruct (DataIngestor.read_file fs p ".xlsx") as [[df ins]|e] eqn:Hread;
      cbn in H; [|discriminate].
    injection H as <-. exists p, ".xlsx", df. auto.
  - unfold ParquetDataIngestor.ingest in H.
    destruct (Py.endswith p ".parquet"); cbn [negb] in H; [|discriminate].
    destruct (DataIngestor.read_file fs p ".parquet") as [[df ins]|e] eqn:Hread;
      cbn in H; [|discriminate].
    injection H as <-. exists p, ".parquet", df. auto.
  - unfold JsonDataIngestor.ingest in H.
    destruct (Py.endswith p ".json"); cbn [negb] in H; [|discriminate].
    destruct (DataIngestor.read_file fs p ".json") as [[df ins]|e] eqn:Hread;
      cbn in H; [|discriminate].
    injection H as <-. exists p, ".json", df. auto.
  - unfold TxtDataIngestor.ingest in H.
    destruct (Py.endswith p ".txt"); cbn [negb] in H; [|discriminate].
    destruct (DataIngestor.read_file fs p ".json") as [[df ins]|e] eqn:Hread;
      cbn in H; [|discriminate].
    injection H as <-. exists p, ".json", df. auto.
  - apply ingest_Return_inv in H as [names ->].
    apply list_elem_of_omap in Hin as (n & _ & Hn).
    destruct (turn (files w') folder n) as [m'|msg] eqn:Hturn; [|discriminate].
    injection Hn as ->. by eapply turn_describes.
Qed.

(** C8. For the metadata [m] of any successfully ingested file (by any
    per-format ingestor, or as a listed entry of a ZIP ingestion) and
    the files [fs] as the ingestion left them, executing the recorded
    function with the recorded arguments succeeds, and the table it
    gives has the recorded columns and the recorded number of rows. *)
Theorem reload_reproduces_shape (fs : FileSystem) (m : FileMetadata) :
  ingested fs m →
  ∃ df, DataLoader.load_entry fs m = Return df
        ∧ df_columns df = columns m
        ∧ len df = row_count m.
Proof. intros H. by apply load_entry_describes, ingested_describes. Qed.

End reload.

Lemma reload_reproduces_shape_witness :
  ∃ df, @DataLoader.load_entry no_archives
          [("sales.csv", Sample.sales_csv)] sales_metadata = Return df
        ∧ df_columns df = ["id"; "amount"]
        ∧ len df = 3.
Proof.
  apply (@reload_reproduces_shape no_archives
           [("sales.csv", Sample.sales_csv)] sales_metadata).
  apply (@ingested_csv no_archives [("sales.csv", Sample.sales_csv)]
           "sales.csv" sales_metadata).
  vm_compute. reflexivity.
Defined.

(** * Further properties *)

(** ** Suffixes and base names *)

Lemma length_app_string (s t : string) :
  String.length (s +:+ t) = String.length s + String.length t.
Proof.
  induction s as [|a s IH]; [reflexivity|]. rewrite app_String. cbn.
  by rewrite IH.
Qed.

Lemma substring_whole (s : string) : String.substring 0 (String.length s) s = s.
Proof. induction s as [|a s IH]; [reflexivity|]. cbn. by rewrite IH. Qed.

Lemma substring_after (pre s : string) :
  String.substring (String.length pre) (String.length s) (pre +:+ s) = s.
Proof.
  induction pre as [|a pre IH]; [apply substring_whole|].
  rewrite app_String. cbn [String.length String.substring]. exact IH.
Qed.

Lemma substring_split (s : string) (k : nat) :
  (k <= String.length s)%nat →
  String.substring 0 k s +:+ String.substring k (String.length s - k) s = s.
Proof.
  revert k. induction s as [|a s IH]; intros k Hk.
  - destruct k; [reflexivity|cbn in Hk; lia].
  - destruct k as [|k].
    + rewrite Nat.sub_0_r, substring_whole. reflexivity.
    + cbn [String.substring String.length]. rewrite app_String.
      f_equal. apply IH. cbn in Hk. lia.
Qed.

Lemma length_substring_tail (s : string) (k : nat) :
  (k <= String.length s)%nat →
  String.length (String.substring k (String.length s - k) s)
    = String.length s - k.
Proof.
  intros Hk. pose proof (substring_split s k Hk) as Hsplit.
  apply (f_equal String.length) in Hsplit.
  rewrite length_app_string in Hsplit.
  assert (String.length (String.substring 0 k s) = k); [|lia].
  clear Hsplit. revert k Hk. induction s as [|a s IH]; intros k Hk.
  - destruct k; [reflexivity|cbn in Hk; lia].
  - destruct k as [|k]; [reflexivity|]. cbn. f_equal. apply IH.
    cbn in Hk. lia.
Qed.

(** [s.endswith(suffix)] holds exactly when [s] is something followed
    by [suffix]. *)
Lemma endswith_app (pre suffix : string) :
  Py.endswith (pre +:+ suffix) suffix = true.
Proof.
  unfold Py.endswith. rewrite length_app_string.
  replace (String.length pre + String.length suffix - String.length suffix)
    with (String.length pre) by lia.
  rewrite substring_after, String.eqb_refl, andb_true_r.
  apply Nat.leb_le. lia.
Qed.

Lemma endswith_inv (s suffix : string) :
  Py.endswith s suffix = true → ∃ pre, s = pre +:+ suffix.
Proof.
  unfold Py.endswith.
  set (m := String.length suffix). set (n := String.length s).
  intros [Hle Heq]%andb_true_iff.
  apply Nat.leb_le in Hle. apply String.eqb_eq in Heq.
  exists (String.substring 0 (n - m) s). rewrite <- Heq.
  pose proof (substring_split s (n - m)) as H. fold n in H.
  replace (n - (n - m)) with m in H by lia.
  symmetry. apply H. lia.
Qed.

Lemma contains_app (s t : string) (c : ascii) :
  Py.contains (s +:+ t) c = Py.contains s c || Py.contains t c.
Proof.
  induction s as [|a s IH]; [reflexivity|]. rewrite app_String. cbn.
  by rewrite IH, orb_assoc.
Qed.

Lemma rfind_from_absent (s : string) (c : ascii) (i found : Z) :
  Py.contains s c = false → Py.rfind_from s c i found = found.
Proof.
  revert i found. induction s as [|a s IH]; intros i found; [done|]. cbn.
  intros [-> Hs]%orb_false_elim. by apply IH.
Qed.

Lemma rfind_from_last (pre rest : string) (c : ascii) (i found : Z) :
  Py.contains rest c = false →
  Py.rfind_from (pre +:+ String c rest) c i found
    = (i + Z.of_nat (String.length pre))%Z.
Proof.
  intros Hrest. revert i found.
  induction pre as [|a pre IH]; intros i found.
  - unfold String.app. cbn. rewrite Ascii.eqb_refl.
    rewrite rfind_from_absent by done. lia.
  - rewrite app_String. cbn [Py.rfind_from String.length]. rewrite IH. lia.
Qed.

(** The last separator of a path that has one. *)
Lemma split_last (p : string) (c : ascii) :
  Py.contains p c = true →
  ∃ pre rest, p = pre +:+ String c rest ∧ Py.contains rest c = false.
Proof.
  induction p as [|a p IH]; [done|]. cbn.
  destruct (Py.contains p c) eqn:Hp.
  - intros _. destruct (IH eq_refl) as (pre & rest & -> & Hrest).
    exists (String a pre), rest. by rewrite app_String.
  - rewrite orb_false_r. intros ->%Ascii.eqb_eq.
    exists "", p. done.
Qed.

Lemma basename_plain (p : string) :
  Py.contains p os_path.sep = false → os_path.basename p = p.
Proof.
  intros Hp. unfold os_path.basename, Py.rfind, Py.slice_from.
  rewrite rfind_from_absent by done. cbn [Z.add Z.to_nat Z.opp].
  change (Z.to_nat (-1 + 1)) with 0. rewrite Nat.sub_0_r.
  apply substring_whole.
Qed.

Lemma basename_after_sep (pre rest : string) :
  Py.contains rest os_path.sep = false →
  os_path.basename (pre +:+ String os_path.sep rest) = rest.
Proof.
  intros Hrest. set (q := pre +:+ String os_path.sep "").
  assert (Hp : pre +:+ String os_path.sep rest = q +:+ rest)
    by (unfold q; by rewrite app_assoc_string).
  assert (Hlen : Z.to_nat (0 + Z.of_nat (String.length pre) + 1)
                 = String.length q)
    by (unfold q; rewrite length_app_string; cbn; lia).
  unfold os_path.basename, Py.rfind, Py.slice_from.
  rewrite rfind_from_last by done. rewrite Hlen, Hp.
  assert (String.length (q +:+ rest) - String.length q = String.length rest)
    as -> by (rewrite length_app_string; lia).
  apply substring_after.
Qed.

(** A base name holds no separator. *)
Lemma basename_no_sep (p : string) :
  Py.contains (os_path.basename p) os_path.sep = false.
Proof.
  destruct (Py.contains p os_path.sep) eqn:Hp.
  - destruct (split_last p _ Hp) as (pre & rest & -> & Hrest).
    by rewrite basename_after_sep.
  - by rewrite basename_plain.
Qed.

(** A suffix without separator is still a suffix of the base name. *)
Lemma basename_endswith (p suffix : string) :
  Py.contains suffix os_path.sep = false →
  Py.endswith p suffix = true →
  Py.endswith (os_path.basename p) suffix = true.
Proof.
  intros Hsuf [pre ->]%endswith_inv.
  destruct (Py.contains pre os_path.sep) eqn:Hpre.
  - destruct (split_last pre _ Hpre) as (a & b & -> & Hb).
    rewrite app_assoc_string, app_String.
    rewrite basename_after_sep by (by rewrite contains_app, Hb, Hsuf).
    apply endswith_app.
  - rewrite basename_plain by (by rewrite contains_app, Hpre, Hsuf).
    apply endswith_app.
Qed.

(** ** What the per-format ingestors return and raise *)

Section per_format.
Context {pf : Platform}.

Lemma csv_ingest_Return (fs : FileSystem) (p : string) (m : FileMetadata) :
  CsvDataIngestor.ingest fs p = Return m →
  Py.endswith p ".csv" = true
  ∧ ∃ df ins, DataIngestor.read_file fs p ".csv" = Return (df, ins)
              ∧ m = {| file_name := os_path.basename p; file_type := ".csv";
                       columns := df_columns df; row_count := len df;
                       import_instructions := ins |}.
Proof.
  unfold CsvDataIngestor.ingest.
  destruct (Py.endswith p ".csv"); cbn [negb]; [|discriminate].
  destruct (FS.exists_ fs p); cbn [negb]; [|discriminate].
  destruct (DataIngestor.read_file fs p ".csv") as [[df ins]|e]; cbn;
    [|discriminate].
  intros [= <-]. eauto.
Qed.

Lemma excel_ingest_Return (fs : FileSystem) (p : string) (m : FileMetadata) :
  ExcelDataIngestor.ingest fs p = Return m →
  Py.endswith_any p [".xlsx"; ".xls"] = true
  ∧ ∃ df ins, DataIngestor.read_file fs p ".xlsx" = Return (df, ins)
              ∧ m = {| file_name := os_path.basename p; file_type := ".xlsx";
                       columns := df_columns df; row_count := len df;
                       import_instructions := ins |}.
Proof.
  unfold ExcelDataIngestor.ingest.
  destruct (Py.endswith_any p _); cbn [negb]; [|discriminate].
  destruct (DataIngestor.read_file fs p ".xlsx") as [[df ins]|e]; cbn;
    [|discriminate].
  intros [= <-]. eauto.
Qed.

Lemma parquet_ingest_Return (fs : FileSystem) (p : string) (m : FileMetadata) :
  ParquetDataIngestor.ingest fs p = Return m →
  Py.endswith p ".parquet" = true
  ∧ ∃ df ins, DataIngestor.read_file fs p ".parquet" = Return (df, ins)
              ∧ m = {| file_name := os_path.basename p; file_type := ".parquet";
                       columns := df_columns df; row_count := len df;
                       import_instructions := ins |}.
Proof.
  unfold ParquetDataIngestor.ingest.
  destruct (Py.endswith p ".parquet"); cbn [negb]; [|discriminate].
  destruct (DataIngestor.read_file fs p ".parquet") as [[df ins]|e]; cbn;
    [|discriminate].
  intros [= <-]. eauto.
Qed.

(** X1. The recorded name agrees with the recorded type where the
    ingestor writes the suffix it checked: for the CSV and the Parquet
    ingestor, and for the Excel ingestor on a [.xlsx] path, [file_name]
    ends with [file_type]; and [file_name] never holds a separator,
    whatever directories the path goes through. *)
Theorem file_name_ends_with_file_type (fs : FileSystem) (file_path : string)
    (m : FileMetadata) :
  CsvDataIngestor.ingest fs file_path = Return m
  ∨ ParquetDataIngestor.ingest fs file_path = Return m
  ∨ (ExcelDataIngestor.ingest fs file_path = Return m
     ∧ Py.endswith file_path ".xlsx" = true) →
  Py.endswith (file_name m) (file_type m) = true
  ∧ Py.contains (file_name m) os_path.sep = false.
Proof.
  intros [H|[H|[H Hx]]].
  - apply csv_ingest_Return in H as (Hsuf & df & ins & _ & ->). cbn.
    split; [by apply basename_endswith|apply basename_no_sep].
  - apply parquet_ingest_Return in H as (Hsuf & df & ins & _ & ->). cbn.
    split; [by apply basename_endswith|apply basename_no_sep].
  - apply excel_ingest_Return in H as (_ & df & ins & _ & ->). cbn.
    split; [by apply basename_endswith|apply basename_no_sep].
Qed.

(** X2. The Excel ingestor also takes a path that ends in [.xls]: it
    reads it with the [.xlsx] reader and, when that succeeds, records
    the type [.xlsx] and the recipe [pd.read_excel] on the path as
    given. *)
Theorem excel_ingestor_takes_xls (fs : FileSystem) (file_path bytes : string)
    (df : DataFrame) :
  Py.endswith file_path ".xls" = true →
  FS.read fs file_path = Some bytes →
  excel_decode bytes = Return df →
  ExcelDataIngestor.ingest fs file_path =
    Return {| file_name := os_path.basename file_path;
              file_type := ".xlsx";
              columns := df_columns df;
              row_count := len df;
              import_instructions :=
                {| function := "pd.read_excel";
                   arguments := {[ "io" := file_path ]} |} |}.
Proof.
  intros Hxls Hread Hdec. unfold ExcelDataIngestor.ingest, Py.endswith_any.
  cbn [existsb]. rewrite Hxls. cbn [orb]. rewrite orb_true_r. cbn [negb].
  unfold DataIngestor.read_file, pd.read_excel, open_read. cbn.
  rewrite Hread. cbn. rewrite Hdec. reflexivity.
Qed.

(** X3. Whatever goes wrong inside a per-format ingestor, the caller
    sees a [ValueError]: the reader's own exception, of whatever class,
    never gets through.  The one exception to this is the
    [FileNotFoundError] of the CSV ingestor, raised exactly for a
    [.csv] path that does not exist. *)
Theorem per_format_failures_are_ValueError (fs : FileSystem)
    (file_path : string) (e : Exception) :
  (CsvDataIngestor.ingest fs file_path = Raise e →
   exc_class e = ValueError
   ∨ (exc_class e = FileNotFoundError
      ∧ Py.endswith file_path ".csv" = true
      ∧ FS.exists_ fs file_path = false))
  ∧ (ExcelDataIngestor.ingest fs file_path = Raise e
     ∨ ParquetDataIngestor.ingest fs file_path = Raise e
     ∨ JsonDataIngestor.ingest fs file_path = Raise e
     ∨ TxtDataIngestor.ingest fs file_path = Raise e →
     exc_class e = ValueError).
Proof.
  split.
  - unfold CsvDataIngestor.ingest.
    destruct (Py.endswith file_path ".csv"); cbn [negb]; [|intros [= <-]; by left].
    destruct (FS.exists_ fs file_path); cbn [negb];
      [|intros [= <-]; right; done].
    destruct (DataIngestor.read_file fs file_path ".csv") as [[df ins]|e0];
      cbn; [discriminate|]. intros [= <-]. by left.
  - intros [H|[H|[H|H]]]; revert H.
    + unfold ExcelDataIngestor.ingest.
      destruct (Py.endswith_any file_path _); cbn [negb]; [|by intros [= <-]].
      destruct (DataIngestor.read_file fs file_path ".xlsx") as [[df ins]|e0];
        cbn; [discriminate|]. by intros [= <-].
    + unfold ParquetDataIngestor.ingest.
      destruct (Py.endswith file_path ".parquet"); cbn [negb];
        [|by intros [= <-]].
      destruct (DataIngestor.read_file fs file_path ".parquet")
        as [[df ins]|e0]; cbn; [discriminate|]. by intros [= <-].
    + unfold JsonDataIngestor.ingest.
      destruct (Py.endswith file_path ".json"); cbn [negb]; [|by intros [= <-]].
      destruct (DataIngestor.read_file fs file_path ".json") as [[df ins]|e0];
        cbn; [discriminate|]. by intros [= <-].
    + unfold TxtDataIngestor.ingest.
      destruct (Py.endswith file_path ".txt"); cbn [negb]; [|by intros [= <-]].
      destruct (DataIngestor.read_file fs file_path ".json") as [[df ins]|e0];
        cbn; [discriminate|]. by intros [= <-].
Qed.

End per_format.

Lemma file_name_ends_with_file_type_witness :
  Py.endswith "sales.csv" ".csv" = true
  ∧ Py.contains "sales.csv" os_path.sep = false.
Proof.
  apply (@file_name_ends_with_file_type no_archives
           [("/data/in/sales.csv", Sample.sales_csv)] "/data/in/sales.csv"
           {| file_name := "sales.csv";
              file_type := ".csv";
              columns := ["id"; "amount"];
              row_count := 3;
              import_instructions :=
                {| function := "pd.read_csv";
                   arguments :=
                     {[ "filepath_or_buffer" := "/data/in/sales.csv" ]} |} |}).
  left. vm_compute. reflexivity.
Defined.

Lemma excel_ingestor_takes_xls_witness :
  ∃ m, @ExcelDataIngestor.ingest no_archives
         [("/data/book.xls", "XLSX" +:+ Sample.sales_csv)] "/data/book.xls"
       = Return m
       ∧ file_name m = "book.xls" ∧ file_type m = ".xlsx".
Proof.
  eexists. split.
  - apply (@excel_ingestor_takes_xls no_archives
             [("/data/book.xls", "XLSX" +:+ Sample.sales_csv)]
             "/data/book.xls" ("XLSX" +:+ Sample.sales_csv)
             {| df_columns := ["id"; "amount"];
                df_rows := [["1"; "10"]; ["2"; "20"]; ["3"; "30"]] |});
      reflexivity.
  - split; reflexivity.
Defined.

Lemma per_format_failures_are_ValueError_witness :
  @ParquetDataIngestor.ingest no_archives
    [("/data/t.parquet", "not parquet")] "/data/t.parquet"
  = Raise (mkExc ValueError
             "Failed to ingest Parquet file: File is not a PAR1 file")
  ∧ exc_class
      (mkExc ValueError
         "Failed to ingest Parquet file: File is not a PAR1 file")
    = ValueError.
Proof.
  assert (H : @ParquetDataIngestor.ingest no_archives
                [("/data/t.parquet", "not parquet")] "/data/t.parquet"
              = Raise (mkExc ValueError
                  "Failed to ingest Parquet file: File is not a PAR1 file"))
    by (vm_compute; reflexivity).
  split; [exact H|].
  apply (proj2 (@per_format_failures_are_ValueError no_archives
                  [("/data/t.parquet", "not parquet")] "/data/t.parquet" _)).
  right. left. exact H.
Defined.

(** ** The ZIP ingestor: what it returns, what it leaves alone *)

Section zip_more.
Context {pf : Platform}.

Lemma extract_members_frame (members : list (string * string)) (d : string)
    (w w1 : World) (r : Outcome ()) :
  extract_members members d w = (r, w1) →
  untouched_outside d (files w) (files w1) ∧ shown w1 = shown w.
Proof.
  revert w. induction members as [|[n c] members IH]; intros w.
  - cbn. intros [= <- <-]. by repeat split.
  - cbn [extract_members]. unfold mbind, Run_bind.
    destruct (write_file (os_path.join d "" +:+ n) c w) as [[[]|e] w0] eqn:Hw;
      apply write_file_frame in Hw as (Hs & Hr & Hk).
    + intros H. apply IH in H as [[Hread Hkeys] Hshown].
      repeat split; [| |congruence].
      * intros q Hq. rewrite Hread by done. apply Hr.
        intros ->. by rewrite strip_prefix_app in Hq.
      * intros q Hq. by apply Hkeys, Hk.
    + intros [= <- <-]. repeat split; [| |done].
      * intros q Hq. apply Hr. intros ->. by rewrite strip_prefix_app in Hq.
      * done.
Qed.

(** The steps before the listing show nothing and touch nothing
    outside the extraction folder, however they end. *)
Lemma extraction_frame (file_path : string) (w w1 : World) (r : Outcome ()) :
  (os_makedirs folder;; zipfile_extractall file_path folder) w = (r, w1) →
  untouched_outside folder (files w) (files w1) ∧ shown w1 = shown w.
Proof.
  unfold mbind at 1, Run_bind, os_makedirs.
  destruct (os_refuses folder); [intros [= <- <-]; by repeat split|].
  destruct (FS.read (files w) folder); [intros [= <- <-]; by repeat split|].
  unfold zipfile_extractall, mbind, Run_bind, reading.
  destruct (open_read (files w) file_path);
    [|intros [= <- <-]; by repeat split].
  destruct (zip_decode a) as [members|e]; [apply extract_members_frame|].
  destruct (extract_members (zip_extracted_before a) folder w)
    as [[[]|e'] w0] eqn:Hpart;
    apply extract_members_frame in Hpart; by intros [= <- <-].
Qed.

(** Every way the ingestor can end. *)
Lemma zip_ingest_cases (file_path : string) (w w' : World)
    (r : Outcome (list FileMetadata)) :
  ZipDataIngestor.ingest file_path w = (r, w') →
  (w' = w ∧ ∃ e, r = Raise e)
  ∨ ∃ w1 r1,
      Py.endswith file_path ".zip" = true
      ∧ FS.exists_ (files w) file_path = true
      ∧ (os_makedirs folder;; zipfile_extractall file_path folder) w = (r1, w1)
      ∧ match r1 with
        | Raise e => r = Raise e ∧ w' = w1
        | Return _ =>
            let filtered :=
              ZipDataIngestor.filter_extracted (FS.listdir (files w1) folder) in
            if bool_decide (filtered = []) then r = Raise EmptyArchive ∧ w' = w1
            else r = Return (records (files w1) folder filtered)
                 ∧ w' = {| files := files w1;
                           shown := shown w1
                                      ++ warnings (files w1) folder filtered |}
        end.
Proof.
  unfold ZipDataIngestor.ingest.
  destruct (Py.endswith file_path ".zip") eqn:Hzip; cbn [negb];
    [|intros [= <- <-]; left; eauto].
  unfold mbind at 1, Run_bind, reading.
  destruct (FS.exists_ (files w) file_path) eqn:Hex; cbn [negb];
    [|intros [= <- <-]; left; eauto].
  intros H. right.
  destruct ((os_makedirs folder;; zipfile_extractall file_path folder) w)
    as [r1 w1] eqn:Hpre.
  exists w1, r1. repeat split; try done.
  revert H Hpre. unfold mbind, Run_bind.
  destruct (os_makedirs folder w) as [[[]|e0] w0].
  - destruct (zipfile_extractall file_path folder w0) as [[[]|e1] w2].
    + intros H [= <- <-]. revert H. unfold os_listdir, reading.
      case_bool_decide.
      * by intros [= <- <-].
      * rewrite for_each_file_turns. by intros [= <- <-].
    + by intros [= <- <-] [= <- <-].
  - by intros [= <- <-] [= <- <-].
Qed.

Lemma records_names (fs : FileSystem) (d : string) (names : list string) :
  file_name <$> records fs d names `sublist_of` names.
Proof.
  unfold records. induction names as [|n names IH]; [done|].
  cbn [omap list_omap]. unfold turn at 1.
  destruct (bool_decide _); [|by apply sublist_cons].
  destruct (DataIngestor.read_file fs (os_path.join d n) (os_path.splitext n).2)
    as [[df ins]|e]; [|by apply sublist_cons].
  cbn. by apply sublist_skip.
Qed.

Lemma records_warnings_length (fs : FileSystem) (d : string)
    (names : list string) :
  length (records fs d names) + length (warnings fs d names) = length names.
Proof.
  unfold records, warnings. induction names as [|n names IH]; [done|].
  cbn [omap list_omap]. destruct (turn fs d n); cbn; lia.
Qed.

Lemma warnings_are_warnings (fs : FileSystem) (d : string)
    (names : list string) :
  ∃ msgs, warnings fs d names = Warned <$> msgs.
Proof.
  unfold warnings. induction names as [|n names [msgs IH]]; [by exists []|].
  cbn [omap list_omap]. destruct (turn fs d n) as [m|msg].
  - by exists msgs.
  - exists (msg :: msgs). cbn. by rewrite IH.
Qed.

(** X4. When ZIP ingestion returns, some eligible entry was listed;
    every eligible entry has given exactly one record or exactly one
    warning; the records come in listing order; and nothing but these
    warnings has been shown. *)
Theorem zip_every_entry_accounted (file_path : string) (w w' : World)
    (ms : list FileMetadata) :
  ZipDataIngestor.ingest file_path w = (Return ms, w') →
  let filtered :=
    ZipDataIngestor.filter_extracted (FS.listdir (files w') folder) in
  filtered ≠ []
  ∧ file_name <$> ms `sublist_of` filtered
  ∧ ∃ msgs, shown w' = shown w ++ (Warned <$> msgs)
            ∧ length ms + length msgs = length filtered.
Proof.
  intros H. cbn zeta.
  apply zip_ingest_cases in H as [[_ [e [=]]]|(w1 & r1 & _ & _ & Hpre & H)].
  destruct r1 as [[]|e]; [|by destruct H].
  apply extraction_frame in Hpre as [_ Hshown]. cbn zeta in H.
  case_bool_decide as Hne; [by destruct H|].
  destruct H as [[= ->] ->]. cbn [files shown].
  split; [done|]. split; [apply records_names|].
  destruct (warnings_are_warnings (files w1) folder
              (ZipDataIngestor.filter_extracted (FS.listdir (files w1) folder)))
    as [msgs Hmsgs].
  exists msgs. rewrite Hshown, Hmsgs. split; [done|].
  pose proof (records_warnings_length (files w1) folder
                (ZipDataIngestor.filter_extracted
                   (FS.listdir (files w1) folder))) as Hlen.
  rewrite Hmsgs, length_fmap in Hlen. exact Hlen.
Qed.

Lemma read_file_records_path (fs : FileSystem) (p ext : string)
    (df : DataFrame) (ins : ImportInstructions) :
  DataIngestor.read_file fs p ext = Return (df, ins) →
  ∃ key, arguments ins !! key = Some p.
Proof.
  unfold DataIngestor.read_file.
  destruct (String.eqb ext ".csv");
    [|destruct (String.eqb ext ".xlsx");
      [|destruct (String.eqb ext ".parquet");
        [|destruct (String.eqb ext ".json");
          [|destruct (String.eqb ext ".txt"); [|discriminate]]]]].
  - destruct (pd.read_csv fs p ",") as [df'|e]; [|discriminate].
    intros [= _ <-]. exists "filepath_or_buffer". apply lookup_singleton_eq.
  - destruct (pd.read_excel fs p) as [df'|e]; [|discriminate].
    intros [= _ <-]. exists "io". apply lookup_singleton_eq.
  - destruct (pd.read_parquet fs p) as [df'|e]; [|discriminate].
    intros [= _ <-]. exists "path". apply lookup_singleton_eq.
  - destruct (pd.read_json fs p) as [df'|e]; [|discriminate].
    intros [= _ <-]. exists "path_or_buf". apply lookup_singleton_eq.
  - destruct (pd.read_csv fs p TAB) as [df'|e]; [|discriminate].
    intros [= _ <-]. exists "filepath_or_buffer". cbn.
    rewrite lookup_insert_ne by done. apply lookup_singleton_eq.
Qed.

Lemma records_elem (fs : FileSystem) (d : string) (names : list string)
    (m : FileMetadata) :
  m ∈ records fs d names ↔ ∃ n, n ∈ names ∧ turn fs d n = inl m.
Proof.
  unfold records. rewrite list_elem_of_omap. split.
  - intros (n & Hn & Hturn). exists n. split; [done|].
    destruct (turn fs d n); by inversion Hturn.
  - intros (n & Hn & Hturn). exists n. by rewrite Hturn.
Qed.

(** X5. Every record of a ZIP ingestion is about a listed entry of the
    extraction folder whose name starts neither with [.] nor with [_];
    its [file_type] is the extension of its [file_name] and one of the
    five supported ones; and its recipe reads the file inside the
    extraction folder. *)
Theorem zip_record_shape (file_path : string) (w w' : World)
    (ms : list FileMetadata) (m : FileMetadata) :
  ZipDataIngestor.ingest file_path w = (Return ms, w') →
  m ∈ ms →
  file_name m ∈ FS.listdir (files w') folder
  ∧ Py.startswith (file_name m) "." = false
  ∧ Py.startswith (file_name m) "_" = false
  ∧ file_type m = (os_path.splitext (file_name m)).2
  ∧ file_type m ∈ ZipDataIngestor.supported_formats
  ∧ ∃ key, arguments (import_instructions m) !! key
           = Some (os_path.join folder (file_name m)).
Proof.
  intros H Hm.
  apply zip_ingest_cases in H as [[_ [e [=]]]|(w1 & r1 & _ & _ & _ & H)].
  destruct r1 as [[]|e]; [|by destruct H]. cbn zeta in H.
  case_bool_decide as Hne; [by destruct H|].
  destruct H as [[= ->] ->]. cbn [files].
  apply records_elem in Hm as (n & Hn & Hturn).
  apply filter_extracted_elem in Hn as (Hlisted & Hdot & Hunder).
  revert Hturn. unfold turn. case_bool_decide as Hsupp; [|discriminate].
  destruct (DataIngestor.read_file (files w1) (os_path.join folder n)
              (os_path.splitext n).2) as [[df ins]|e] eqn:Hread;
    [|discriminate].
  intros [= <-]. cbn. repeat split; try done.
  by eapply read_file_records_path.
Qed.


Lemma untouched_outside_refl (d : string) (fs : FileSystem) :
  untouched_outside d fs fs.
Proof. by split. Qed.

Lemma untouched_outside_trans (d : string) (fs1 fs2 fs3 : FileSystem) :
  untouched_outside d fs1 fs2 → untouched_outside d fs2 fs3 →
  untouched_outside d fs1 fs3.
Proof.
  intros [Hr1 Hk1] [Hr2 Hk2]. split.
  - intros q Hq. by rewrite Hr2, Hr1.
  - intros q Hq. by apply Hk2, Hk1.
Qed.

Lemma zip_ingest_frame (file_path : string) (w w' : World)
    (r : Outcome (list FileMetadata)) :
  ZipDataIngestor.ingest file_path w = (r, w') →
  untouched_outside folder (files w) (files w').
Proof.
  intros H.
  apply zip_ingest_cases in H as [[-> _]|(w1 & r1 & _ & _ & Hpre & H)];
    [apply untouched_outside_refl|].
  apply extraction_frame in Hpre as [Hframe _].
  destruct r1 as [[]|e]; [|by destruct H as [_ ->]]. cbn zeta in H.
  case_bool_decide; by destruct H as [_ ->].
Qed.

(** X7. However a ZIP ingestion ends, it has changed no file outside
    the extraction folder and has removed no file at all. *)
Theorem zip_touches_only_extraction_folder (file_path : string) (w w' : World)
    (r : Outcome (list FileMetadata)) :
  ZipDataIngestor.ingest file_path w = (r, w') →
  (∀ q, FS.strip_prefix (os_path.join folder "") q = None →
        FS.read (files w') q = FS.read (files w) q)
  ∧ (∀ q, q ∈ fst <$> files w → q ∈ fst <$> files w').
Proof. apply zip_ingest_frame. Qed.

End zip_more.

(** ** Ingesting the same archive again *)

Section again.
Context {pf : Platform}.

(** Files with the same paths in the same order and the same bytes
    are the same files, when no path occurs twice. *)
Lemma files_ext (fs1 fs2 : FileSystem) :
  fst <$> fs1 = fst <$> fs2 →
  NoDup (fst <$> fs1) →
  (∀ p, FS.read fs1 p = FS.read fs2 p) →
  fs1 = fs2.
Proof.
  revert fs2. induction fs1 as [|[q c1] fs1 IH]; intros [|[q2 c2] fs2];
    cbn; try done.
  intros [= <- Hkeys] [Hq Hnd]%NoDup_cons Hread.
  assert (Hhead := Hread q). unfold FS.read in Hhead. cbn in Hhead.
  rewrite String.eqb_refl in Hhead. injection Hhead as <-.
  f_equal. apply IH; [done|done|]. intros p.
  destruct (decide (p = q)) as [->|Hne].
  - assert (H1 : FS.read fs1 q = None).
    { destruct (FS.read fs1 q) eqn:E; [|done].
      exfalso. apply Hq, read_key. eauto. }
    assert (H2 : FS.read fs2 q = None).
    { destruct (FS.read fs2 q) eqn:E; [|done].
      exfalso. apply Hq. rewrite Hkeys. apply read_key. eauto. }
    by rewrite H1, H2.
  - specialize (Hread p). unfold FS.read in *. cbn in Hread.
    assert (String.eqb q p = false) as Hqp by (apply String.eqb_neq; congruence).
    by rewrite Hqp in Hread.
Qed.

Lemma keys_unpack_same (fs : FileSystem) (members : list (string * string))
    (d : string) :
  (∀ m, m ∈ members → os_path.join d "" +:+ m.1 ∈ fst <$> fs) →
  fst <$> unpack fs members d = fst <$> fs.
Proof.
  revert fs. induction members as [|m members IH]; intros fs Hall; [done|].
  rewrite unpack_cons, IH.
  - apply keys_write_old, Hall. left.
  - intros m' Hm'. apply keys_write_incl, Hall. by right.
Qed.

Lemma NoDup_keys_write (fs : FileSystem) (p c : string) :
  NoDup (fst <$> fs) → NoDup (fst <$> FS.write fs p c).
Proof.
  intros Hnd. destruct (decide (p ∈ fst <$> fs)) as [Hin|Hnin].
  - by rewrite keys_write_old.
  - rewrite keys_write_new by done. apply NoDup_app. split; [done|].
    split; [|apply NoDup_singleton].
    intros q Hq ->%list_elem_of_singleton. done.
Qed.

Lemma NoDup_keys_unpack (fs : FileSystem) (members : list (string * string))
    (d : string) :
  NoDup (fst <$> fs) → NoDup (fst <$> unpack fs members d).
Proof.
  revert fs. induction members as [|m members IH]; intros fs Hnd; [done|].
  rewrite unpack_cons. by apply IH, NoDup_keys_write.
Qed.

Lemma target_or_not (members : list (string * string)) (d p : string) :
  (∃ m, m ∈ members ∧ os_path.join d "" +:+ m.1 = p)
  ∨ ¬ (∃ m, m ∈ members ∧ os_path.join d "" +:+ m.1 = p).
Proof.
  destruct (decide (p ∈ (λ m : string * string, os_path.join d "" +:+ m.1)
                         <$> members)) as [Hin|Hnin].
  - left. apply list_elem_of_fmap in Hin as (m & -> & Hm). eauto.
  - right. intros (m & Hm & <-). apply Hnin.
    by apply (list_elem_of_fmap_2
                (λ m : string * string, os_path.join d "" +:+ m.1)).
Qed.

(** What a path written by the extraction holds afterwards depends on
    the archive only. *)
Lemma read_unpack_target (fs fs' : FileSystem)
    (members : list (string * string)) (d p : string) :
  (∃ m, m ∈ members ∧ os_path.join d "" +:+ m.1 = p) →
  FS.read (unpack fs members d) p = FS.read (unpack fs' members d) p.
Proof.
  revert fs fs'. induction members as [|m members IH]; intros fs fs' Hex.
  - destruct Hex as (m & Hm & _). inversion Hm.
  - rewrite !unpack_cons.
    destruct (target_or_not members d p) as [Hlater|Hnot].
    + by apply IH.
    + rewrite !read_unpack_other by (intros m' Hm' Heq; apply Hnot; eauto).
      destruct Hex as (m' & [->|Hm']%elem_of_cons & Heq).
      * subst p. by rewrite !read_write_eq.
      * exfalso. apply Hnot. eauto.
Qed.

(** Extracting the same archive a second time changes nothing. *)
Lemma unpack_again (fs : FileSystem) (members : list (string * string))
    (d : string) :
  NoDup (fst <$> fs) →
  unpack (unpack fs members d) members d = unpack fs members d.
Proof.
  intros Hnd. set (fs1 := unpack fs members d).
  assert (Hkeys : fst <$> unpack fs1 members d = fst <$> fs1).
  { apply keys_unpack_same. intros m Hm. apply keys_unpack_elem. eauto. }
  apply files_ext; [done| |].
  - rewrite Hkeys. by apply NoDup_keys_unpack.
  - intros p.
    destruct (target_or_not members d p) as [Htarget|Hnot].
    + by apply read_unpack_target.
    + apply read_unpack_other. intros m Hm Heq. apply Hnot. eauto.
Qed.

Lemma strip_prefix_longer (s t : string) (c : ascii) :
  FS.strip_prefix (s +:+ String c t) s = None.
Proof.
  induction s as [|a s IH]; [reflexivity|].
  rewrite app_String. cbn. by rewrite Ascii.eqb_refl.
Qed.

Lemma app_last_inj (s t : string) (a b : ascii) :
  s +:+ String a "" = t +:+ String b "" → a = b.
Proof.
  revert t. induction s as [|x s IH]; intros [|y t].
  - by intros [= ->].
  - rewrite app_String. intros [= _ H]. by destruct t.
  - rewrite app_String. intros [= _ H]. by destruct s.
  - rewrite !app_String. intros [= _ H]. by eapply IH.
Qed.

(** The path of a relative name in a directory. *)
Lemma join_relative_name (d n : string) :
  Py.startswith n "/" = false → os_path.join d n = os_path.join d "" +:+ n.
Proof.
  intros Hn. unfold os_path.join. rewrite Hn.
  change (Py.startswith "" "/") with false. cbn [negb].
  destruct (String.eqb d "" || Py.endswith d "/").
  - by rewrite app_empty_r.
  - by rewrite app_empty_r, app_assoc_string.
Qed.

(** A directory whose name ends in a letter has its entries after
    the name and a separator. *)
Lemma join_after_letter (x : string) (a : ascii) :
  a ≠ os_path.sep →
  os_path.join (x +:+ String a "") "" = (x +:+ String a "") +:+ "/".
Proof.
  intros Ha. unfold os_path.join.
  change (Py.startswith "" "/") with false. cbn [negb].
  assert (String.eqb (x +:+ String a "") "" = false) as ->.
  { apply String.eqb_neq. by destruct x. }
  destruct (Py.endswith (x +:+ String a "") "/") eqn:Hend.
  - apply endswith_inv in Hend as [pre Hpre].
    apply app_last_inj in Hpre. done.
  - cbn [orb]. by rewrite app_empty_r.
Qed.

Lemma folder_entries :
  os_path.join folder "" = folder +:+ "/".
Proof.
  unfold PathManager.get_extracted_data_folder.
  rewrite (join_relative_name _ "extracted_data") by reflexivity.
  change "extracted_data" with ("extracted_dat" +:+ String "a" "").
  rewrite <- app_assoc_string. by apply join_after_letter.
Qed.

Lemma folder_outside_itself :
  FS.strip_prefix (os_path.join folder "") folder = None.
Proof. rewrite folder_entries. apply strip_prefix_longer. Qed.

Lemma unpack_frame (fs : FileSystem) (members : list (string * string))
    (d q : string) :
  FS.strip_prefix (os_path.join d "") q = None →
  FS.read (unpack fs members d) q = FS.read fs q.
Proof.
  intros Hq. apply read_unpack_other. intros m Hm <-.
  by rewrite strip_prefix_app in Hq.
Qed.

(** X8. Ingesting an archive a second time gives the same result as
    the first time and leaves the files as the first run left them.
    (The archive extracts, lies outside the extraction folder, and no
    path is listed twice.) *)
Theorem zip_ingest_again (file_path : string) (w w1 : World)
    (members : list (string * string)) (r : Outcome (list FileMetadata)) :
  NoDup (fst <$> files w) →
  extracts file_path w members →
  FS.strip_prefix (os_path.join folder "") file_path = None →
  ZipDataIngestor.ingest file_path w = (r, w1) →
  ∃ w2, ZipDataIngestor.ingest file_path w1 = (r, w2)
        ∧ files w2 = files w1.
Proof.
  intros Hnd Hex Hout Hrun.
  pose proof (ingest_extracts _ _ _ Hex) as Hing. cbn zeta in Hing.
  set (fs1 := unpack (files w) members folder) in *.
  assert (Hfiles : files w1 = fs1 ∧
            r = if bool_decide (ZipDataIngestor.filter_extracted
                                  (FS.listdir fs1 folder) = [])
                then Raise EmptyArchive
                else Return (records fs1 folder
                               (ZipDataIngestor.filter_extracted
                                  (FS.listdir fs1 folder)))).
  { rewrite Hrun in Hing. revert Hing. case_bool_decide.
    - by intros [= -> ->].
    - rewrite for_each_file_turns. by intros [= -> ->]. }
  destruct Hfiles as [Hfs1 Hr].
  assert (Hex1 : extracts file_path w1 members).
  { destruct Hex as (Hzip & (bytes & Hread & Hdec) & Hdir & Hnofile & Hall).
    split; [done|]. split; [|split; [done|split; [|done]]].
    - exists bytes. split; [|done].
      rewrite Hfs1. unfold fs1. by rewrite unpack_frame.
    - rewrite Hfs1. unfold fs1.
      rewrite unpack_frame by apply folder_outside_itself. done. }
  pose proof (ingest_extracts _ _ _ Hex1) as Hing1. cbn zeta in Hing1.
  rewrite Hfs1 in Hing1. unfold fs1 in Hing1.
  rewrite unpack_again in Hing1 by done. fold fs1 in Hing1.
  rewrite Hing1, Hr. case_bool_decide.
  - eexists. split; [reflexivity|]. by rewrite Hfs1.
  - rewrite for_each_file_turns. cbn [files shown app].
    eexists. split; [reflexivity|]. by rewrite Hfs1.
Qed.

End again.

Lemma bundle_run_result : bundle_run = (Return [a_csv_metadata], bundle_run.2).
Proof. vm_compute. reflexivity. Qed.

Lemma zip_every_entry_accounted_witness :
  ZipDataIngestor.filter_extracted
    (FS.listdir (files bundle_run.2) (@folder bundle)) ≠ []
  ∧ file_name <$> [a_csv_metadata]
      `sublist_of` ZipDataIngestor.filter_extracted
                     (FS.listdir (files bundle_run.2) (@folder bundle))
  ∧ ∃ msgs, shown bundle_run.2 = shown clean_world ++ (Warned <$> msgs)
            ∧ length [a_csv_metadata] + length msgs
              = length (ZipDataIngestor.filter_extracted
                          (FS.listdir (files bundle_run.2) (@folder bundle))).
Proof.
  exact (@zip_every_entry_accounted bundle "/data/bundle.zip" clean_world
           bundle_run.2 [a_csv_metadata] bundle_run_result).
Defined.

Lemma zip_record_shape_witness :
  file_name a_csv_metadata ∈ FS.listdir (files bundle_run.2) (@folder bundle)
  ∧ Py.startswith (file_name a_csv_metadata) "." = false
  ∧ Py.startswith (file_name a_csv_metadata) "_" = false
  ∧ file_type a_csv_metadata = (os_path.splitext (file_name a_csv_metadata)).2
  ∧ file_type a_csv_metadata ∈ ZipDataIngestor.supported_formats
  ∧ ∃ key, arguments (import_instructions a_csv_metadata) !! key
           = Some (os_path.join (@folder bundle) (file_name a_csv_metadata)).
Proof.
  apply (@zip_record_shape bundle "/data/bundle.zip" clean_world
           bundle_run.2 [a_csv_metadata] a_csv_metadata bundle_run_result).
  left.
Defined.


Lemma zip_touches_only_extraction_folder_witness :
  (∀ q, FS.strip_prefix (os_path.join (@folder bundle) "") q = None →
        FS.read (files bundle_run.2) q = FS.read (files clean_world) q)
  ∧ (∀ q, q ∈ fst <$> files clean_world → q ∈ fst <$> files bundle_run.2).
Proof.
  exact (@zip_touches_only_extraction_folder bundle "/data/bundle.zip"
           clean_world bundle_run.2 (Return [a_csv_metadata])
           bundle_run_result).
Defined.

Lemma zip_ingest_again_witness :
  ∃ w2, @ZipDataIngestor.ingest bundle "/data/bundle.zip" bundle_run.2
        = (Return [a_csv_metadata], w2)
        ∧ files w2 = files bundle_run.2.
Proof.
  apply (@zip_ingest_again bundle "/data/bundle.zip" clean_world bundle_run.2
           bundle_members (Return [a_csv_metadata])).
  - apply NoDup_singleton.
  - split; [reflexivity|]. split; [exists "BUNDLE"; split; reflexivity|].
    split; [reflexivity|]. split; [reflexivity|]. repeat constructor.
  - reflexivity.
  - exact bundle_run_result.
Defined.

(** ** Saving, once more *)

Section saving.
Context {pf : Platform}.

Lemma save_metadata_written (metadata : list FileMetadata) (w : World) :
  os_makedirs PathManager.get_metadata_folder w = (Return (), w) →
  os_refuses metadata_path = None →
  DataIngestor.save_metadata metadata w =
    (Return (),
     {| files := FS.write (files w) metadata_path (json_dumps metadata);
        shown := shown w ++ [Printed ("Metadata saved at " +:+ metadata_path)] |}).
Proof.
  intros Hdir Hwrite. unfold DataIngestor.save_metadata.
  unfold mbind at 1, Run_bind. rewrite Hdir.
  unfold try_catch, mbind, Run_bind, write_file.
  fold metadata_path. rewrite Hwrite. reflexivity.
Qed.

(** X9. When the system allows it, [save_metadata] replaces the
    metadata file wholesale: afterwards the file holds the encoding of
    the batch just given, whatever it held before; every other file is
    as it was; and the path is printed. *)
Theorem save_metadata_replaces_file (metadata : list FileMetadata) (w : World) :
  os_makedirs PathManager.get_metadata_folder w = (Return (), w) →
  os_refuses metadata_path = None →
  ∃ w', DataIngestor.save_metadata metadata w = (Return (), w')
        ∧ FS.read (files w') metadata_path = Some (json_dumps metadata)
        ∧ (∀ q, q ≠ metadata_path → FS.read (files w') q = FS.read (files w) q)
        ∧ shown w' = shown w ++ [Printed ("Metadata saved at " +:+ metadata_path)].
Proof.
  intros Hdir Hwrite. eexists.
  split; [by apply save_metadata_written|]. cbn.
  split; [apply read_write_eq|].
  split; [|done]. intros q Hq. apply read_write_ne. congruence.
Qed.

(** X10. [save_metadata] raises exactly when making the metadata
    folder raises, and then raises the same exception and has done
    nothing: a failure of the write itself never reaches the caller. *)
Theorem save_metadata_raises_iff (metadata : list FileMetadata) (w w' : World)
    (e : Exception) :
  DataIngestor.save_metadata metadata w = (Raise e, w')
  ↔ os_makedirs PathManager.get_metadata_folder w = (Raise e, w') ∧ w' = w.
Proof.
  unfold DataIngestor.save_metadata. unfold mbind at 1, Run_bind.
  unfold os_makedirs.
  destruct (os_refuses PathManager.get_metadata_folder) as [e0|].
  - split; [intros [= <- <-]; done|by intros [? _]].
  - destruct (FS.read (files w) PathManager.get_metadata_folder).
    + split; [intros [= <- <-]; done|by intros [? _]].
    + unfold try_catch, mbind, Run_bind, write_file.
      destruct (os_refuses _); cbn; split; try discriminate;
        by intros [[=] _].
Qed.

End saving.

Lemma save_metadata_replaces_file_witness :
  ∃ w', @DataIngestor.save_metadata no_archives [sales_metadata]
          {| files := [("/proj/metadata/metadata.json", "old")]; shown := [] |}
        = (Return (), w')
        ∧ FS.read (files w') "/proj/metadata/metadata.json" = Some "sales.csv".
Proof.
  destruct (@save_metadata_replaces_file no_archives [sales_metadata]
              {| files := [("/proj/metadata/metadata.json", "old")];
                 shown := [] |} eq_refl eq_refl)
    as (w' & Hrun & Hread & _).
  exists w'. split; [exact Hrun|exact Hread].
Defined.

Lemma save_metadata_raises_iff_witness :
  @DataIngestor.save_metadata no_archives [sales_metadata] metadata_is_a_file
  = (Raise (mkExc FileExistsError "[Errno 17] File exists: '/proj/metadata'"),
     metadata_is_a_file).
Proof.
  apply (proj2 (@save_metadata_raises_iff no_archives [sales_metadata]
                  metadata_is_a_file metadata_is_a_file
                  (mkExc FileExistsError
                     "[Errno 17] File exists: '/proj/metadata'"))).
  split; reflexivity.
Defined.

(** ** Loading what was ingested *)

Section loading.
Context {pf : Platform}.
Variable display : bool → DataFrame → Run unit.

Lemma load_one_Raise (styled : bool) (entry : FileMetadata) (w w' : World)
    (e : Exception) :
  DataLoader.load_one display styled entry w = (Raise e, w') →
  ∃ cause, e = mkExc Exception_
                 ("Failed to load data from " +:+ file_name entry
                    +:+ ": " +:+ cause).
Proof.
  unfold DataLoader.load_one, try_catch.
  match goal with
  | |- context [match ?run with pair _ _ => _ end] =>
      destruct run as [[df|e0] w0]; [discriminate|]
  end.
  unfold raise. intros [= <- <-]. eauto.
Qed.

Lemma load_each_Raise (entries : list FileMetadata) (dfs : list DataFrame)
    (w w' : World) (e : Exception) :
  DataLoader.load_each display entries dfs w = (Raise e, w') →
  ∃ entry cause,
    entry ∈ entries
    ∧ e = mkExc Exception_
            ("Failed to load data from " +:+ file_name entry
               +:+ ": " +:+ cause).
Proof.
  revert dfs w. induction entries as [|entry rest IH]; intros dfs w.
  - discriminate.
  - cbn [DataLoader.load_each]. unfold mbind, Run_bind.
    destruct (DataLoader.load_one display false entry w) as [[df|e0] w0]
      eqn:Hone.
    + intros H. apply IH in H as (entry' & cause & Hin & ->).
      exists entry', cause. split; [by right|done].
    + intros [= <- <-]. apply load_one_Raise in Hone as [cause ->].
      exists entry, cause. split; [left|done].
Qed.

(** X11. Take a loader whose entries have the form [save_metadata]
    writes and name readers the ingestors record.  Whatever fails
    while [load_data] reads a file or displays a frame, the caller sees
    one [Exception] that names the file of the entry at which it
    happened. *)
Theorem load_data_failure_names_file (self : DataLoader.Loader) (w w' : World)
    (e : Exception) :
  Forall (λ entry, function (import_instructions entry) ∈ recorded_readers)
    (DataLoader.metadata self) →
  DataLoader.load_data display self w = (Raise e, w') →
  ∃ entry cause,
    entry ∈ DataLoader.metadata self
    ∧ e = mkExc Exception_
            ("Failed to load data from " +:+ file_name entry
               +:+ ": " +:+ cause).
Proof.
  intros _. unfold DataLoader.load_data.
  destruct (DataLoader.metadata self) as [|entry [|entry2 rest]].
  - cbn. discriminate.
  - unfold mbind, Run_bind, print, show.
    destruct (DataLoader.load_one display true entry _) as [[df|e0] w0]
      eqn:Hone; [discriminate|].
    intros [= <- <-]. apply load_one_Raise in Hone as [cause ->].
    exists entry, cause. split; [left|done].
  - unfold mbind at 1 2, Run_bind, print, show.
    destruct (DataLoader.load_each display _ _ _) as [[dfs|e0] w0] eqn:Heach;
      [discriminate|].
    intros [= <- <-]. by apply load_each_Raise in Heach.
Qed.

Hypothesis display_shows_only : shows_only display.

Lemma load_one_describes (styled : bool) (m : FileMetadata) (w : World) :
  describes (files w) m →
  ∃ df evs,
    DataLoader.load_one display styled m w
    = (Return df, {| files := files w; shown := shown w ++ evs |})
    ∧ has_shape m df.
Proof.
  intros (p & ext & df & Hread & Hcols & Hrows).
  pose proof (recipe_reloads _ _ _ _ _ Hread) as Hreload.
  unfold DataLoader.load_one, try_catch.
  unfold mbind at 1, Run_bind, reading. rewrite Hreload.
  unfold mbind at 1, Run_bind, print, show.
  destruct (display_shows_only styled (DataLoader.df_head df)
              {| files := files w;
                 shown := shown w ++
                   [Printed (DataLoader.loaded_message
                               (os_path.splitext (file_name m)).1 df)] |})
    as [evs Hdisplay].
  unfold mbind, Run_bind. rewrite Hdisplay. cbn.
  exists df. eexists. split.
  - by rewrite <- app_assoc.
  - by split.
Qed.

Lemma load_each_describes (ms : list FileMetadata) (dfs : list DataFrame)
    (w : World) :
  Forall (describes (files w)) ms →
  ∃ loaded evs,
    DataLoader.load_each display ms dfs w
    = (Return (dfs ++ loaded),
       {| files := files w; shown := shown w ++ evs |})
    ∧ Forall2 has_shape ms loaded.
Proof.
  revert dfs w. induction ms as [|m ms IH]; intros dfs w Hall.
  - exists [], []. cbn. rewrite !app_nil_r. destruct w. by split.
  - apply Forall_cons in Hall as [Hm Hall].
    destruct (load_one_describes false m w Hm) as (df & evs & Hone & Hshape).
    cbn [DataLoader.load_each]. unfold mbind, Run_bind. rewrite Hone.
    destruct (IH (dfs ++ [df])
                {| files := files w; shown := shown w ++ evs |} Hall)
      as (loaded & evs' & Heach & Hshapes).
    rewrite Heach. cbn. exists (df :: loaded), (evs ++ evs').
    rewrite <- !app_assoc. split; [done|]. by constructor.
Qed.

(** X12. Loading composes with ingesting.  Give [load_data] the
    records of successfully ingested files, on the files as the
    ingestion left them, in a notebook whose [display] only shows:
    it returns normally, changes no file, and gives one frame per
    record, in order, each with the recorded columns and row count; it
    gives the bare frame exactly when there is one record. *)
Theorem load_data_after_ingestion (self : DataLoader.Loader) (w : World) :
  Forall (ingested (files w)) (DataLoader.metadata self) →
  ∃ r w',
    DataLoader.load_data display self w = (Return r, w')
    ∧ files w' = files w
    ∧ Forall2 has_shape (DataLoader.metadata self) (frames r)
    ∧ ((∃ df, r = DataLoader.OneFrame df)
       ↔ length (DataLoader.metadata self) = 1).
Proof.
  intros Hall.
  assert (Hdesc : Forall (describes (files w)) (DataLoader.metadata self)).
  { eapply Forall_impl; [exact Hall|]. intros m. apply ingested_describes. }
  clear Hall. unfold DataLoader.load_data.
  destruct (DataLoader.metadata self) as [|m [|m2 rest]] eqn:Hmeta.
  - cbn. do 2 eexists. split; [reflexivity|]. cbn.
    repeat split; try done. by intros [df [=]].
  - apply Forall_cons in Hdesc as [Hm _].
    unfold mbind at 1, Run_bind, print, show.
    destruct (load_one_describes true m
                {| files := files w;
                   shown := shown w ++
                     [Printed ("Loading file..." +:+ DataLoader.LF
                                 +:+ DataLoader.LF)] |} Hm)
      as (df & evs & Hone & Hshape).
    unfold mbind, Run_bind. rewrite Hone. cbn.
    do 2 eexists. split; [reflexivity|]. cbn.
    split; [done|]. split; [constructor; [exact Hshape|constructor]|].
    split; eauto.
  - unfold mbind at 1, Run_bind, print, show.
    destruct (load_each_describes (m :: m2 :: rest) []
                {| files := files w;
                   shown := shown w ++
                     [Printed ("Loading files..." +:+ DataLoader.LF
                                 +:+ DataLoader.LF)] |} Hdesc)
      as (loaded & evs & Heach & Hshapes).
    unfold mbind, Run_bind. rewrite Heach. cbn.
    do 2 eexists. split; [reflexivity|]. cbn.
    repeat split; try done. by intros [df [=]].
Qed.

End loading.

Lemma load_data_failure_names_file_witness :
  ∃ entry cause,
    entry ∈ DataLoader.metadata sales_loader
    ∧ mkExc Exception_
        "Failed to load data from sales.csv: [Errno 2] No such file or directory: 'sales.csv'"
      = mkExc Exception_
          ("Failed to load data from " +:+ file_name entry +:+ ": " +:+ cause).
Proof.
  apply (@load_data_failure_names_file no_archives line_display sales_loader
           {| files := []; shown := [] |}
           {| files := [];
              shown := [Printed ("Loading file..." +:+ DataLoader.LF
                                   +:+ DataLoader.LF)] |}).
  - constructor; [left|constructor].
  - vm_compute. reflexivity.
Defined.

Lemma line_display_shows_only : shows_only line_display.
Proof. intros styled df w. eexists. reflexivity. Qed.

Lemma load_data_after_ingestion_witness :
  ∃ r w',
    @DataLoader.load_data no_archives line_display sales_loader
      {| files := [("sales.csv", Sample.sales_csv)]; shown := [] |}
    = (Return r, w')
    ∧ files w' = [("sales.csv", Sample.sales_csv)]
    ∧ Forall2 has_shape [sales_metadata] (frames r)
    ∧ ((∃ df, r = DataLoader.OneFrame df) ↔ 1 = 1).
Proof.
  apply (@load_data_after_ingestion no_archives line_display
           line_display_shows_only sales_loader
           {| files := [("sales.csv", Sample.sales_csv)]; shown := [] |}).
  constructor; [|constructor].
  apply (@ingested_csv no_archives [("sales.csv", Sample.sales_csv)]
           "sales.csv" sales_metadata).
  vm_compute. reflexivity.
Defined.

(** ** From the saved file back to the loader *)

Section reading_back.
Context {pf : Platform}.
Variable json_loads : string → Outcome (list FileMetadata).

(** X13. What [save_metadata] has written, a [DataLoader] built on the
    path of the metadata file reads back: when the write is allowed and
    [json.load] inverts [json.dump] on the batch, the loader holds the
    batch that was saved. *)
Theorem saved_metadata_loads (metadata : list FileMetadata) (w : World) :
  os_makedirs PathManager.get_metadata_folder w = (Return (), w) →
  os_refuses metadata_path = None →
  json_loads (json_dumps metadata) = Return metadata →
  ∃ w', DataIngestor.save_metadata metadata w = (Return (), w')
        ∧ DataLoader.init json_loads (files w') metadata_path
          = Return {| DataLoader.metadata_file_path := metadata_path;
                      DataLoader.metadata := metadata |}.
Proof.
  intros Hdir Hwrite Hjson. eexists.
  split; [by apply save_metadata_written|]. cbn [files].
  unfold DataLoader.init, DataLoader.load_metadata, open_read.
  rewrite read_write_eq. cbn. rewrite Hjson. reflexivity.
Qed.

(** X14. When the construction of the loader fails, the caller sees
    one [Exception] whose text is [Error loading metadata:] followed by
    the cause.  The cause is the error of [json.load] when the file is
    there, and otherwise the error of [open]: [Errno 2] where nothing
    is at the path, [Errno 21] where the path is a directory,
    [Errno 20] where it goes through a regular file. *)
Theorem loader_construction_failure (fs : FileSystem)
    (metadata_file_path : string) (e : Exception) :
  DataLoader.init json_loads fs metadata_file_path = Raise e →
  ∃ cause,
    e = mkExc Exception_ ("Error loading metadata: " +:+ str cause)
    ∧ (∀ text, FS.read fs metadata_file_path = Some text →
               json_loads text = Raise cause)
    ∧ (FS.read fs metadata_file_path = None →
       open_read fs metadata_file_path = Raise cause)
    ∧ (FS.exists_ fs metadata_file_path = false →
       FS.through_a_file fs metadata_file_path = false →
       cause = mkExc FileNotFoundError
                 ("[Errno 2] No such file or directory: '"
                    +:+ metadata_file_path +:+ "'"))
    ∧ (FS.read fs metadata_file_path = None →
       metadata_file_path ≠ "" →
       FS.listdir fs metadata_file_path ≠ [] →
       cause = mkExc IsADirectoryError
                 ("[Errno 21] Is a directory: '"
                    +:+ metadata_file_path +:+ "'"))
    ∧ (FS.exists_ fs metadata_file_path = false →
       metadata_file_path ≠ "" →
       FS.through_a_file fs metadata_file_path = true →
       cause = mkExc NotADirectoryError
                 ("[Errno 20] Not a directory: '"
                    +:+ metadata_file_path +:+ "'")).
Proof.
  unfold DataLoader.init, DataLoader.load_metadata.
  destruct (FS.read fs metadata_file_path) as [text|] eqn:Hread.
  - rewrite (open_read_file _ _ _ Hread). cbn.
    destruct (json_loads text) as [md|e0] eqn:Hjson; cbn; [discriminate|].
    intros [= <-]. exists e0. split; [done|].
    split; [by intros ? [= <-]|]. split; [done|].
    assert (Hex : FS.exists_ fs metadata_file_path = true).
    { unfold FS.exists_. rewrite Hread.
      by rewrite (bool_decide_eq_true_2 (is_Some (Some text))) by eauto. }
    rewrite Hex. repeat split; done.
  - destruct (open_read fs metadata_file_path) as [text|cause] eqn:Hopen;
      [destruct (open_read_no_file _ _ Hread) as [e0 He0]; congruence|].
    cbn. intros [= <-]. exists cause. split; [done|].
    split; [by intros ? [=]|]. split; [done|].
    revert Hopen. unfold open_read. rewrite Hread.
    unfold FS.exists_. rewrite Hread.
    rewrite (bool_decide_eq_false_2 (is_Some None)) by (by intros [? [=]]).
    cbn [orb].
    destruct (String.eqb_spec metadata_file_path "") as [->|Hne].
    + intros [= <-]. repeat split; done.
    + destruct (bool_decide (FS.listdir fs metadata_file_path ≠ []))
        eqn:Hdir.
      * intros [= <-]. repeat split; done.
      * apply bool_decide_eq_false in Hdir.
        destruct (FS.through_a_file fs metadata_file_path);
          intros [= <-]; repeat split; done.
Qed.

End reading_back.

Lemma saved_metadata_loads_witness :
  ∃ w', @DataIngestor.save_metadata no_archives [sales_metadata]
          {| files := []; shown := [] |} = (Return (), w')
        ∧ DataLoader.init loads_sales (files w') (@metadata_path no_archives)
          = Return {| DataLoader.metadata_file_path := @metadata_path no_archives;
                      DataLoader.metadata := [sales_metadata] |}.
Proof.
  apply (@saved_metadata_loads no_archives loads_sales [sales_metadata]
           {| files := []; shown := [] |}); reflexivity.
Defined.

Lemma loader_construction_failure_witness :
  ∃ cause,
    mkExc Exception_
      "Error loading metadata: [Errno 21] Is a directory: '/proj/metadata'"
    = mkExc Exception_ ("Error loading metadata: " +:+ str cause)
    ∧ (∀ text, FS.read (files sales_saved) "/proj/metadata" = Some text →
               loads_sales text = Raise cause)
    ∧ (FS.read (files sales_saved) "/proj/metadata" = None →
       open_read (files sales_saved) "/proj/metadata" = Raise cause)
    ∧ (FS.exists_ (files sales_saved) "/proj/metadata" = false →
       FS.through_a_file (files sales_saved) "/proj/metadata" = false →
       cause = mkExc FileNotFoundError
                 ("[Errno 2] No such file or directory: '"
                    +:+ "/proj/metadata" +:+ "'"))
    ∧ (FS.read (files sales_saved) "/proj/metadata" = None →
       "/proj/metadata" ≠ "" →
       FS.listdir (files sales_saved) "/proj/metadata" ≠ [] →
       cause = mkExc IsADirectoryError
                 ("[Errno 21] Is a directory: '" +:+ "/proj/metadata" +:+ "'"))
    ∧ (FS.exists_ (files sales_saved) "/proj/metadata" = false →
       "/proj/metadata" ≠ "" →
       FS.through_a_file (files sales_saved) "/proj/metadata" = true →
       cause = mkExc NotADirectoryError
                 ("[Errno 20] Not a directory: '" +:+ "/proj/metadata" +:+ "'")).
Proof.
  apply (@loader_construction_failure loads_sales (files sales_saved)
           "/proj/metadata").
  vm_compute. reflexivity.
Defined.

(** ** The factory, once more *)

Lemma get_ingestor_Return (file_extension : string) (ingestor : Ingestor) :
  DataFactory.get_ingestor file_extension = Return ingestor →
  (file_extension, ingestor)
    ∈ [(".zip", ZipDataIngestor); (".csv", CsvDataIngestor);
       (".xlsx", ExcelDataIngestor); (".parquet", ParquetDataIngestor);
       (".json", JsonDataIngestor); (".txt", TxtDataIngestor)].
Proof.
  unfold DataFactory.get_ingestor, DataFactory.ingestors.
  destruct (_ !! file_extension) as [i|] eqn:Hlook; [|discriminate].
  intros [= ->].
  repeat (apply lookup_insert_Some in Hlook as [[<- <-]|[_ Hlook]];
          [set_solver|]).
  by rewrite lookup_empty in Hlook.
Qed.

Lemma get_ingestor_unrecognized (file_extension : string) :
  file_extension ∉ recognized_extensions →
  DataFactory.get_ingestor file_extension
  = Raise (UnsupportedFormat file_extension).
Proof.
  intros Hout. unfold recognized_extensions in Hout.
  repeat (apply not_elem_of_cons in Hout as [? Hout]).
  unfold DataFactory.get_ingestor, DataFactory.ingestors.
  repeat (rewrite lookup_insert_ne by congruence).
  by rewrite lookup_empty.
Qed.

Lemma get_ingestor_recognized (file_extension : string) :
  file_extension ∈ recognized_extensions →
  ∃ ingestor, DataFactory.get_ingestor file_extension = Return ingestor.
Proof.
  unfold recognized_extensions. intros Hin.
  repeat (apply elem_of_cons in Hin as [->|Hin]; [by eexists|]).
  inversion Hin.
Qed.

(** X15. The factory is one-to-one: two extensions that get the same
    ingestor are the same extension.  In particular [.zip] is the only
    extension that gets the ZIP ingestor, so the script's test of the
    extension agrees with the ingestor it has made. *)
Theorem get_ingestor_one_to_one (e1 e2 : string) (ingestor : Ingestor) :
  DataFactory.get_ingestor e1 = Return ingestor →
  DataFactory.get_ingestor e2 = Return ingestor →
  e1 = e2 ∧ (ingestor = ZipDataIngestor ↔ e1 = ".zip").
Proof.
  intros H1%get_ingestor_Return H2%get_ingestor_Return.
  repeat (apply elem_of_cons in H1 as [[= -> ->]|H1]);
    [..|inversion H1];
    repeat (apply elem_of_cons in H2 as [[= ->]|H2]);
    try (by inversion H2); by split.
Qed.

Lemma get_ingestor_one_to_one_witness :
  ".zip" = ".zip" ∧ (ZipDataIngestor = ZipDataIngestor ↔ ".zip" = ".zip").
Proof.
  apply (get_ingestor_one_to_one ".zip" ".zip" ZipDataIngestor);
    reflexivity.
Defined.

(** ** The script *)

Section script.
Context {pf : Platform}.

Lemma strip_prefix_common (r a b : string) :
  FS.strip_prefix (r +:+ a) (r +:+ b) = FS.strip_prefix a b.
Proof.
  induction r as [|c r IH]; [reflexivity|].
  rewrite !app_String. cbn. by rewrite Ascii.eqb_refl.
Qed.

(** The metadata file does not lie in the extraction folder. *)
Lemma metadata_outside_extraction :
  FS.strip_prefix (os_path.join folder "") metadata_path = None.
Proof.
  rewrite folder_entries.
  unfold metadata_path, PathManager.get_metadata_folder,
    PathManager.get_extracted_data_folder.
  rewrite (join_relative_name _ "metadata.json") by reflexivity.
  rewrite (join_relative_name _ "metadata") by reflexivity.
  rewrite (join_relative_name _ "extracted_data") by reflexivity.
  set (r := os_path.join PathManager.get_project_root "").
  change "metadata" with ("metadat" +:+ String "a" "") at 1.
  rewrite <- (app_assoc_string r "metadat").
  rewrite join_after_letter by done.
  rewrite !app_assoc_string. apply strip_prefix_common.
Qed.

Lemma zip_ingest_shown (file_path : string) (w w' : World)
    (r : Outcome (list FileMetadata)) :
  ZipDataIngestor.ingest file_path w = (r, w') →
  ∃ evs, shown w' = shown w ++ evs.
Proof.
  intros H.
  apply zip_ingest_cases in H as [[-> _]|(w1 & r1 & _ & _ & Hpre & H)].
  - exists []. by rewrite app_nil_r.
  - apply extraction_frame in Hpre as [_ Hshown].
    destruct r1 as [[]|e].
    + cbn zeta in H. case_bool_decide; destruct H as [_ ->].
      * exists []. by rewrite app_nil_r.
      * cbn. rewrite Hshown. eauto.
    + destruct H as [_ ->]. exists []. by rewrite app_nil_r.
Qed.

(** One ingestion by the script: nothing outside the extraction
    folder changes, and what was shown stays shown. *)
Lemma script_ingest_frame (ingestor : Ingestor) (file_path : string)
    (w w' : World) (r : Outcome Ingested) :
  Script.ingest ingestor file_path w = (r, w') →
  untouched_outside folder (files w) (files w')
  ∧ ∃ evs, shown w' = shown w ++ evs.
Proof.
  destruct ingestor; cbn [Script.ingest]; unfold mbind, Run_bind, reading.
  1:{ destruct (ZipDataIngestor.ingest file_path w) as [r0 w0] eqn:Hzip.
      pose proof (zip_ingest_frame _ _ _ _ Hzip) as Hframe.
      pose proof (zip_ingest_shown _ _ _ _ Hzip) as Hshown.
      destruct r0; intros [= <- <-]; by split. }
  all: match goal with
       | |- context [match ?run with Return _ => _ | Raise _ => _ end] =>
           destruct run
       end;
    intros [= <- <-];
    (split; [apply untouched_outside_refl|exists []; by rewrite app_nil_r]).
Qed.

Lemma ingest_each_frame (work : list (Ingestor * string))
    (metadata_list : list FileMetadata) (w w' : World)
    (r : Outcome (list FileMetadata)) :
  Script.ingest_each work metadata_list w = (r, w') →
  untouched_outside folder (files w) (files w')
  ∧ ∃ evs, shown w' = shown w ++ evs.
Proof.
  revert metadata_list w. induction work as [|[i p] work IH];
    intros metadata_list w.
  - cbn. intros [= <- <-].
    split; [apply untouched_outside_refl|exists []; by rewrite app_nil_r].
  - cbn [Script.ingest_each]. unfold mbind, Run_bind.
    destruct (Script.ingest i p w) as [r0 w0] eqn:Hone.
    apply script_ingest_frame in Hone as [Hframe [evs Hshown]].
    destruct r0 as [[m|ms]|e].
    + intros H. apply IH in H as [Hframe' [evs' Hshown']].
      split; [by eapply untouched_outside_trans|].
      exists (evs ++ evs'). by rewrite Hshown', Hshown, app_assoc.
    + intros H. apply IH in H as [Hframe' [evs' Hshown']].
      split; [by eapply untouched_outside_trans|].
      exists (evs ++ evs'). by rewrite Hshown', Hshown, app_assoc.
    + intros [= <- <-]. split; [done|eauto].
Qed.

(** Every way [save_metadata] can end. *)
Lemma save_metadata_cases (metadata : list FileMetadata) (w w' : World)
    (r : Outcome ()) :
  DataIngestor.save_metadata metadata w = (r, w') →
  (w' = w ∧ ∃ e, r = Raise e)
  ∨ (r = Return ()
     ∧ w' = {| files := FS.write (files w) metadata_path (json_dumps metadata);
               shown := shown w
                          ++ [Printed ("Metadata saved at " +:+ metadata_path)] |})
  ∨ (r = Return ()
     ∧ ∃ e, shown w'
            = shown w ++ [Warned ("Failed to save metadata: " +:+ str e)]).
Proof.
  unfold DataIngestor.save_metadata. unfold mbind at 1, Run_bind, os_makedirs.
  destruct (os_refuses PathManager.get_metadata_folder);
    [intros [= <- <-]; left; eauto|].
  destruct (FS.read (files w) PathManager.get_metadata_folder);
    [intros [= <- <-]; left; eauto|].
  unfold try_catch, mbind, Run_bind, write_file. fold metadata_path.
  destruct (os_refuses metadata_path) as [e|];
    [destruct (failed_write_leaves metadata_path _)|];
    cbn; intros [= <- <-].
  - right. right. eauto.
  - right. right. eauto.
  - right. left. done.
Qed.

Lemma get_ingestors_first_bad (good rest : list string) (bad : string) :
  Forall (λ e, e ∈ recognized_extensions) good →
  bad ∉ recognized_extensions →
  Script.get_ingestors (good ++ bad :: rest) = Raise (UnsupportedFormat bad).
Proof.
  intros Hgood Hbad. induction Hgood as [|e good He _ IH]; cbn.
  - by rewrite get_ingestor_unrecognized.
  - destruct (get_ingestor_recognized e He) as [i ->]. cbn. by rewrite IH.
Qed.

(** The script, once the data folder has been listed. *)
Lemma main_listed (w : World) :
  FS.read (files w) PathManager.get_data_folder = None →
  FS.listdir (files w) PathManager.get_data_folder ≠ [] →
  Script.main w =
    (data_ingestors ← reading (λ _, Script.get_ingestors
                                      (data_extensions (files w)));
     metadata_list ←
       Script.ingest_each (zip data_ingestors (eligible_paths (files w))) [];
     DataIngestor.save_metadata metadata_list;;
     print "Data was successfuly ingested.") w.
Proof.
  intros Hnofile Hlist. unfold Script.main.
  unfold mbind at 1, Run_bind, Script.os_listdir_existing.
  rewrite Hnofile. by rewrite bool_decide_eq_false_2.
Qed.

(** X16. A file of a kind the factory does not know, anywhere in the
    data folder, stops the script before it has ingested anything: the
    script raises [UnsupportedFormat] for the first such extension,
    and no file has been read, extracted or written and nothing has
    been shown. *)
Theorem main_rejects_unknown_extension (w : World) (good rest : list string)
    (bad : string) :
  FS.read (files w) PathManager.get_data_folder = None →
  data_extensions (files w) = good ++ bad :: rest →
  Forall (λ e, e ∈ recognized_extensions) good →
  bad ∉ recognized_extensions →
  Script.main w = (Raise (UnsupportedFormat bad), w).
Proof.
  intros Hnofile Hexts Hgood Hbad.
  rewrite main_listed; [|done|].
  - unfold mbind at 1, Run_bind, reading.
    by rewrite Hexts, get_ingestors_first_bad.
  - intros Hnil. unfold data_extensions, eligible_paths in Hexts.
    rewrite Hnil in Hexts. by destruct good.
Qed.

(** Every way the script can end. *)
Lemma main_cases (w w' : World) (r : Outcome ()) :
  Script.main w = (r, w') →
  (w' = w ∧ ∃ e, r = Raise e)
  ∨ ∃ work r1 w1,
      Script.ingest_each work [] w = (r1, w1)
      ∧ match r1 with
        | Raise e => r = Raise e ∧ w' = w1
        | Return metadata_list =>
            ∃ r2 w2,
              DataIngestor.save_metadata metadata_list w1 = (r2, w2)
              ∧ match r2 with
                | Raise e => r = Raise e ∧ w' = w2
                | Return _ =>
                    r = Return ()
                    ∧ w' = {| files := files w2;
                              shown := shown w2 ++ [success_line] |}
                end
        end.
Proof.
  unfold Script.main.
  unfold mbind at 1, Run_bind, Script.os_listdir_existing.
  destruct (FS.read (files w) PathManager.get_data_folder);
    [intros [= <- <-]; left; eauto|].
  case_bool_decide as Hlist; [intros [= <- <-]; left; eauto|].
  unfold mbind at 1, Run_bind, reading.
  destruct (Script.get_ingestors _) as [data_ingestors|e];
    [|intros [= <- <-]; left; eauto].
  intros H. right. unfold mbind at 1, Run_bind in H.
  match type of H with
  | context [Script.ingest_each ?work [] w] =>
      destruct (Script.ingest_each work [] w) as [r1 w1] eqn:Heach;
      exists work, r1, w1
  end.
  split; [done|]. destruct r1 as [metadata_list|e]; [|by injection H as <- <-].
  unfold mbind, Run_bind in H.
  destruct (DataIngestor.save_metadata metadata_list w1) as [r2 w2] eqn:Hsave.
  exists r2, w2. split; [done|].
  destruct r2 as [[]|e]; unfold print, show in H; by injection H as <- <-.
Qed.

(** X17. If the script raises, it has not written the metadata file:
    the file holds what it held before, or is still missing. *)
Theorem main_abort_keeps_metadata_file (w w' : World) (e : Exception) :
  Script.main w = (Raise e, w') →
  FS.read (files w') metadata_path = FS.read (files w) metadata_path.
Proof.
  intros H. apply main_cases in H as [[-> _]|(work & r1 & w1 & Heach & H)];
    [done|].
  apply ingest_each_frame in Heach as [[Hread _] _].
  specialize (Hread metadata_path metadata_outside_extraction).
  destruct r1 as [metadata_list|e1].
  - destruct H as (r2 & w2 & Hsave & H).
    destruct r2 as [[]|e2]; [by destruct H|].
    destruct H as [_ ->].
    apply save_metadata_cases in Hsave
      as [[-> _]|[[[=] _]|[[=] _]]]. done.
  - by destruct H as [_ ->].
Qed.

(** X18. If the script returns, the last thing it has shown is the
    line [Data was successfuly ingested.], and just before it either
    the line that reports the saved metadata file, which then holds the
    encoding of a batch, or the warning that saving failed. *)
Theorem main_return_ends_with_success_line (w w' : World) :
  Script.main w = (Return (), w') →
  ∃ evs,
    (shown w' = shown w ++ evs
                  ++ [Printed ("Metadata saved at " +:+ metadata_path);
                      success_line]
     ∧ ∃ metadata_list,
         FS.read (files w') metadata_path = Some (json_dumps metadata_list))
    ∨ ∃ cause,
        shown w' = shown w ++ evs
                     ++ [Warned ("Failed to save metadata: " +:+ str cause);
                         success_line].
Proof.
  intros H. apply main_cases in H as [[_ [e [=]]]|(work & r1 & w1 & Heach & H)].
  apply ingest_each_frame in Heach as [_ [evs Hshown]].
  destruct r1 as [metadata_list|e1]; [|by destruct H].
  destruct H as (r2 & w2 & Hsave & H).
  destruct r2 as [[]|e2]; [|by destruct H]. destruct H as [_ ->].
  exists evs.
  apply save_metadata_cases in Hsave
    as [[_ [e [=]]]|[[_ ->]|[_ [cause Hwarned]]]]; cbn.
  - left. rewrite Hshown, <- !app_assoc. split; [done|].
    exists metadata_list. apply read_write_eq.
  - right. exists cause. by rewrite Hwarned, Hshown, <- !app_assoc.
Qed.

Lemma ingest_each_all_one (work : list (Ingestor * string))
    (ms metadata_list : list FileMetadata) (w : World) :
  Forall2 (λ job m, Script.ingest job.1 job.2 w = (Return (OneFile m), w))
    work ms →
  Script.ingest_each work metadata_list w = (Return (metadata_list ++ ms), w).
Proof.
  intros Hall. revert metadata_list.
  induction Hall as [|[i p] m work ms Hone _ IH]; intros metadata_list.
  - cbn. by rewrite app_nil_r.
  - cbn [Script.ingest_each]. unfold mbind, Run_bind. cbn in Hone.
    rewrite Hone, IH. by rewrite <- app_assoc.
Qed.

(** X19. A data folder without archives, all of whose eligible files
    ingest: the script saves the records of these files, in listing
    order, as one batch, reports the saved file and ends with the
    success line; no other file changes. *)
Theorem main_saves_batch (w : World) (data_ingestors : list Ingestor)
    (ms : list FileMetadata) :
  FS.read (files w) PathManager.get_data_folder = None →
  FS.listdir (files w) PathManager.get_data_folder ≠ [] →
  Script.get_ingestors (data_extensions (files w)) = Return data_ingestors →
  Forall2 (λ job m, Script.ingest job.1 job.2 w = (Return (OneFile m), w))
    (zip data_ingestors (eligible_paths (files w))) ms →
  os_makedirs PathManager.get_metadata_folder w = (Return (), w) →
  os_refuses metadata_path = None →
  Script.main w =
    (Return (),
     {| files := FS.write (files w) metadata_path (json_dumps ms);
        shown := shown w
                   ++ [Printed ("Metadata saved at " +:+ metadata_path);
                       success_line] |}).
Proof.
  intros Hnofile Hlist Hfactory Hall Hdir Hwrite.
  rewrite main_listed by done.
  unfold mbind at 1, Run_bind, reading. rewrite Hfactory.
  unfold mbind at 1, Run_bind.
  rewrite (ingest_each_all_one _ ms) by done. cbn [app].
  unfold mbind, Run_bind. rewrite save_metadata_written by done.
  unfold print, show. cbn. by rewrite <- app_assoc.
Qed.

End script.

Lemma md_unrecognized : ".md" ∉ recognized_extensions.
Proof.
  unfold recognized_extensions. intros Hin.
  repeat (apply elem_of_cons in Hin as [Hin|Hin]; [discriminate Hin|]).
  inversion Hin.
Qed.

Lemma main_rejects_unknown_extension_witness :
  @Script.main no_archives readme_world
  = (Raise (UnsupportedFormat ".md"), readme_world).
Proof.
  apply (@main_rejects_unknown_extension no_archives readme_world
           [".csv"] [] ".md").
  - reflexivity.
  - reflexivity.
  - constructor; [|constructor]. right. left.
  - exact md_unrecognized.
Defined.

Lemma main_abort_keeps_metadata_file_witness :
  FS.read (files readme_world) (@metadata_path no_archives)
  = FS.read (files readme_world) (@metadata_path no_archives).
Proof.
  apply (@main_abort_keeps_metadata_file no_archives readme_world
           readme_world (UnsupportedFormat ".md")).
  vm_compute. reflexivity.
Defined.

Lemma main_return_ends_with_success_line_witness :
  ∃ evs,
    (shown (@Script.main no_archives sales_world).2
     = shown sales_world ++ evs
         ++ [Printed ("Metadata saved at " +:+ @metadata_path no_archives);
             success_line]
     ∧ ∃ metadata_list,
         FS.read (files (@Script.main no_archives sales_world).2)
           (@metadata_path no_archives)
         = Some (@json_dumps no_archives metadata_list))
    ∨ ∃ cause,
        shown (@Script.main no_archives sales_world).2
        = shown sales_world ++ evs
            ++ [Warned ("Failed to save metadata: " +:+ str cause);
                success_line].
Proof.
  apply (@main_return_ends_with_success_line no_archives sales_world
           (@Script.main no_archives sales_world).2).
  vm_compute. reflexivity.
Defined.

Lemma main_saves_batch_witness :
  @Script.main no_archives sales_world =
    (Return (),
     {| files := [("/proj/data/sales.csv", Sample.sales_csv);
                  ("/proj/metadata/metadata.json", "sales.csv")];
        shown := [Printed "Metadata saved at /proj/metadata/metadata.json";
                  success_line] |}).
Proof.
  apply (@main_saves_batch no_archives sales_world [CsvDataIngestor]
           [data_sales_metadata]).
  - reflexivity.
  - discriminate.
  - reflexivity.
  - constructor; [|constructor]. vm_compute. reflexivity.
  - reflexivity.
  - reflexivity.
Defined.
